(** * DS18B20 driver (7semi_DS18B20): a shallow embedding and its properties

    The driver of [src/7semi_DS18B20.cpp] is embedded as state-passing
    functions over an abstract 1-Wire bus transport.  Bytes are integers with the
    wrap-around of the C types written out; the object fields, the bus and the
    sequence of hardware actions are threaded through a small state monad. *)

From Stdlib Require Import ZArith List Bool Lia QArith.
From Stdlib Require Import Floats.SpecFloat.
From stdpp Require Import base list.

Local Open Scope Z_scope.

(* ===================================================================== *)
(** * Part I: definitions                                                 *)
(* ===================================================================== *)

(** ** Machine integers *)

Module Int.

(** [(uint8_t) z] *)
Definition u8 (z : Z) : Z := z mod 256.

(** [(int8_t) z] *)
Definition i8 (z : Z) : Z := (z + 128) mod 256 - 128.

(** [(int16_t) z] *)
Definition i16 (z : Z) : Z := (z + 32768) mod 65536 - 32768.

(** [(uint64_t) z] *)
Definition u64 (z : Z) : Z := z mod 2 ^ 64.

Definition is_u8 (z : Z) : Prop := 0 <= z < 256.
Definition is_i8 (z : Z) : Prop := -128 <= z <= 127.

(** Bit [k] of a byte inverted, and the same in byte [i] of a buffer. *)
Definition flip_bit (k : Z) (v : Z) : Z := Z.lxor v (Z.shiftl 1 k).

Definition flip_at (i : nat) (k : Z) (buffer : list Z) : list Z :=
  <[i := flip_bit k (nth i buffer 0)]> buffer.

(** Every value of [uint8_t], in increasing order. *)
Definition all_u8 : list Z := map Z.of_nat (seq 0 256).

End Int.
Import Int.

(** ** CRC-8 of the bus transport *)

Module CRC.

(** Modelled from the spec: [OneWire::crc8], the "CRC-8 checksum function"
    of the external bus-transport component, is not under src/.  It is the
    Dallas/Maxim 1-Wire CRC (polynomial x^8 + x^5 + x^4 + 1, reflected
    constant 0x8C, initial value 0), computed bit by bit, least significant
    bit first, over the first [len] bytes of [data]. *)
Definition crc8_bit (crc inbyte : Z) : Z :=
  let mix := Z.land (Z.lxor crc inbyte) 1 in
  let crc := Z.shiftr crc 1 in
  if mix =? 0 then crc else Z.lxor crc 140.

Fixpoint crc8_bits (i : nat) (crc inbyte : Z) : Z :=
  match i with
  | O => crc
  | S i' => crc8_bits i' (crc8_bit crc inbyte) (Z.shiftr inbyte 1)
  end.

Definition crc8_byte (crc inbyte : Z) : Z := crc8_bits 8 crc inbyte.

Definition crc8 (data : list Z) (len : nat) : Z :=
  fold_left crc8_byte (take len data) 0.

End CRC.
Import CRC.

(** ** [float] results *)

Module Float32.

(** IEEE 754 binary32, the [float] of the targets the library builds for. *)
Definition prec : Z := 24.
Definition emax : Z := 128.

Definition float := spec_float.

Definition NAN : float := S754_nan.

(** Conversion of an integer to [float] (round to nearest even). *)
Definition of_int (z : Z) : float := binary_normalize prec emax z 0 false.

Definition div (x y : float) : float := SFdiv prec emax x y.

(** The literal [16.0f]. *)
Definition sixteen : float := of_int 16.

(** The rational a float stands for; [None] for NaN and the infinities. *)
Definition to_Q (x : float) : option Q :=
  match x with
  | S754_zero _ => Some (0 # 1)%Q
  | S754_finite s m e =>
      let n := if s then Z.neg m else Z.pos m in
      Some (if 0 <=? e then (n * 2 ^ e # 1)%Q
            else (n # Z.to_pos (2 ^ (- e)))%Q)
  | _ => None
  end.

End Float32.

(** ** The bus transport and the hardware actions *)

(** A ROM address, a scratchpad: byte buffers. *)
Abbreviation ROM := (list Z).

(** The external bus transport ([OneWire]): the state of the wire and of the
    devices on it, and what each primitive does to it.  [ow_search alarm]
    delivers the bytes the search wrote into the caller's 8-byte buffer when
    it reports a device, [None] when it reports none. *)
Class OneWire (B : Type) := {
  ow_reset : B -> bool * B;
  ow_select : ROM -> B -> B;
  ow_write : Z -> bool -> B -> B;
  ow_read : B -> Z * B;
  ow_reset_search : B -> B;
  ow_search : bool -> B -> option ROM * B
}.

(** What the driver does to the hardware, as an observer of the pins sees it. *)
Inductive Event : Type :=
| EvReset
| EvSelect (addr : ROM)
| EvWrite (v : Z) (power : bool)
| EvRead (v : Z)
| EvResetSearch
| EvSearch (alarm : bool) (found : option ROM)
| EvPinModeOutput (pin : Z)
| EvDigitalWrite (pin : Z) (high : bool)
| EvDelay (ms : Z).

Definition DS18B20_MAX_DEVICES : Z := 16.

(** The object: the fields of [class DS18B20_7semi], and with them the
    actions performed so far on the hardware, oldest first. *)
Record DS18B20_7semi (B : Type) : Type := mkDS18B20 {
  oneWire : B;
  _devices : Z;
  _addresses : list ROM;
  _strongPullupPin : Z;
  _dataPin : Z;
  actions : list Event
}.
Arguments mkDS18B20 {B}.
Arguments oneWire {B}.
Arguments _devices {B}.
Arguments _addresses {B}.
Arguments _strongPullupPin {B}.
Arguments _dataPin {B}.
Arguments actions {B}.

(** ** The monad of the member functions *)

Definition M (B A : Type) : Type := DS18B20_7semi B -> A * DS18B20_7semi B.

Definition ret {B A} (a : A) : M B A := fun s => (a, s).

Definition bind {B A C} (m : M B A) (k : A -> M B C) : M B C :=
  fun s => let r := m s in k (fst r) (snd r).

Declare Scope ds_scope.
Delimit Scope ds_scope with ds.
Notation "x <- m ;; k" := (bind m (fun x => k))
  (at level 100, m at next level, right associativity) : ds_scope.
Notation "m ;; k" := (bind m (fun _ => k))
  (at level 100, right associativity) : ds_scope.

Definition when {B} (c : bool) (m : M B unit) : M B unit :=
  if c then m else ret tt.

(** The result of a call and the state it leaves. *)
Abbreviation result_of m s := (fst (m s)).
Abbreviation state_after m s := (snd (m s)).

(** The hardware actions performed during a call. *)
Definition actions_during {B A} (m : M B A) (s : DS18B20_7semi B) : list Event :=
  drop (length (actions s)) (actions (state_after m s)).

(** ** Reading the sequence of hardware actions *)

(** The addresses the bus search returned. *)
Definition candidates (evs : list Event) : list ROM :=
  omap (fun e => match e with
                 | EvSearch _ (Some addr) => Some addr
                 | _ => None
                 end) evs.

(** The waits, in milliseconds. *)
Definition delays (evs : list Event) : list Z :=
  omap (fun e => match e with EvDelay ms => Some ms | _ => None end) evs.

(** Some pin was driven high. *)
Definition asserts_pullup (evs : list Event) : bool :=
  existsb (fun e => match e with EvDigitalWrite _ true => true | _ => false end) evs.

(** The levels written to pins, in order. *)
Definition pin_writes (evs : list Event) : list (Z * bool) :=
  omap (fun e => match e with
                 | EvDigitalWrite pin high => Some (pin, high)
                 | _ => None
                 end) evs.

(** Some pin was configured or written. *)
Definition touches_pins (evs : list Event) : bool :=
  existsb (fun e => match e with
                    | EvPinModeOutput _ | EvDigitalWrite _ _ => true
                    | _ => false
                    end) evs.

(** The bytes written to the bus, in order. *)
Definition bytes_written (evs : list Event) : list Z :=
  omap (fun e => match e with EvWrite v _ => Some v | _ => None end) evs.

(** Traffic with a selected device: reset, select, bytes written and read. *)
Definition is_wire_traffic (e : Event) : bool :=
  match e with
  | EvReset | EvSelect _ | EvWrite _ _ | EvRead _ => true
  | _ => false
  end.

(** Anything but the bus search and its reset. *)
Definition not_search (e : Event) : bool :=
  match e with
  | EvResetSearch | EvSearch _ _ => false
  | _ => true
  end.

(** The bus search and its reset. *)
Definition is_search (e : Event) : bool := negb (not_search e).

(** What [_strongPullup(on)] does to a pin that is configured. *)
Definition pullup (pin : Z) (on : bool) : list Event :=
  [EvPinModeOutput pin; EvDigitalWrite pin on].

(** A bus transaction: a reset, a device selection or a byte written. *)
Definition is_bus_transaction (e : Event) : bool :=
  match e with
  | EvReset | EvSelect _ | EvWrite _ _ => true
  | _ => false
  end.

(** The actions after the first [EvWrite cmd] and before the first time
    [pin] is driven low after it; [None] when either is missing. *)
Fixpoint until_pin_low (pin : Z) (evs : list Event) : option (list Event) :=
  match evs with
  | [] => None
  | EvDigitalWrite p false :: rest =>
      if p =? pin then Some []
      else option_map (cons (EvDigitalWrite p false)) (until_pin_low pin rest)
  | e :: rest => option_map (cons e) (until_pin_low pin rest)
  end.

Fixpoint between_command_and_pin_low (cmd pin : Z) (evs : list Event)
  : option (list Event) :=
  match evs with
  | [] => None
  | EvWrite v pw :: rest =>
      if v =? cmd then until_pin_low pin rest
      else between_command_and_pin_low cmd pin rest
  | _ :: rest => between_command_and_pin_low cmd pin rest
  end.

(** ** What the spec calls things *)

(** CRC-8 over the first 7 bytes of a ROM address equals its 8th byte. *)
Definition rom_crc_ok (addr : ROM) : bool := crc8 addr 7 =? nth 7 addr 0.

(** CRC-8 over the first 8 bytes of a scratchpad equals its 9th byte. *)
Definition scratchpad_crc_ok (sp : list Z) : bool := crc8 sp 8 =? nth 8 sp 0.

(** The signed 16-bit two's-complement value of a register whose most
    significant byte is [msb] and least significant byte is [lsb]. *)
Definition twos_complement16 (msb lsb : Z) : Z :=
  let w := msb * 256 + lsb in
  if w <? 32768 then w else w - 65536.

(** The number a byte sequence stands for, least significant byte first. *)
Definition le_value (bytes : list Z) : Z :=
  fold_right (fun b acc => b + 256 * acc) 0 bytes.

(** What is checked of every pair of register bytes: the cast of the source
    is the two's-complement value, and the quotient by [16.0f] is exact. *)
Definition decode_check (msb lsb : Z) : bool :=
  let raw := i16 (Z.lor (Z.shiftl msb 8) lsb) in
  (raw =? twos_complement16 msb lsb)
  && match Float32.to_Q (Float32.div (Float32.of_int raw) Float32.sixteen) with
     | Some q => Qeq_bool q (raw # 16)
     | None => false
     end.

(** ** The driver *)

Section Driver.

Context {B : Type} `{OneWire B}.
Local Open Scope ds_scope.

(** *** Bus, pin and timer primitives *)

(** The object once the bus has moved to [b] through the actions [evs]. *)
Definition advance (b : B) (evs : list Event) (s : DS18B20_7semi B)
  : DS18B20_7semi B :=
  mkDS18B20 b (_devices s) (_addresses s) (_strongPullupPin s) (_dataPin s)
            (actions s ++ evs).

Definition with_bus (b : B) (e : Event) (s : DS18B20_7semi B) : DS18B20_7semi B :=
  advance b [e] s.

Definition oneWire_reset : M B bool :=
  fun s => (fst (ow_reset (oneWire s)),
            with_bus (snd (ow_reset (oneWire s))) EvReset s).

Definition oneWire_select (addr : ROM) : M B unit :=
  fun s => (tt, with_bus (ow_select addr (oneWire s)) (EvSelect addr) s).

Definition oneWire_write (v : Z) (power : bool) : M B unit :=
  fun s => (tt, with_bus (ow_write v power (oneWire s)) (EvWrite v power) s).

(** [uint8_t OneWire::read()] *)
Definition oneWire_read : M B Z :=
  fun s => let v := u8 (fst (ow_read (oneWire s))) in
           (v, with_bus (snd (ow_read (oneWire s))) (EvRead v) s).

Definition oneWire_reset_search : M B unit :=
  fun s => (tt, with_bus (ow_reset_search (oneWire s)) EvResetSearch s).

Definition oneWire_search (alarm : bool) : M B (option ROM) :=
  fun s => let r := ow_search alarm (oneWire s) in
           (fst r, with_bus (snd r) (EvSearch alarm (fst r)) s).

Definition delay (ms : Z) : M B unit :=
  fun s => (tt, with_bus (oneWire s) (EvDelay ms) s).

Definition pinMode_OUTPUT (pin : Z) : M B unit :=
  fun s => (tt, with_bus (oneWire s) (EvPinModeOutput pin) s).

Definition digitalWrite (pin : Z) (high : bool) : M B unit :=
  fun s => (tt, with_bus (oneWire s) (EvDigitalWrite pin high) s).

(** *** Fields *)

Definition get_devices : M B Z := fun s => (_devices s, s).

Definition set_devices (n : Z) : M B unit :=
  fun s => (tt, mkDS18B20 (oneWire s) n (_addresses s) (_strongPullupPin s)
                          (_dataPin s) (actions s)).

Definition get_strongPullupPin : M B Z := fun s => (_strongPullupPin s, s).

(** [memcpy(_addresses[i], addr, 8)] *)
Definition store_address (i : Z) (addr : ROM) : M B unit :=
  fun s => (tt, mkDS18B20 (oneWire s) (_devices s)
                          (<[Z.to_nat i := addr]> (_addresses s))
                          (_strongPullupPin s) (_dataPin s) (actions s)).

(** The constructor. *)
Definition DS18B20_new (bus : B) (uninitialised : list ROM)
           (dataPin strongPullupPin : Z) : DS18B20_7semi B :=
  mkDS18B20 bus 0 uninitialised strongPullupPin dataPin [].

(** *** Private helpers *)

Definition _conversionDelayMs (resolution : Z) : Z :=
  match resolution with
  | 9 => 94
  | 10 => 188
  | 11 => 375
  | _ => 750
  end.

Definition _strongPullup (on : bool) : M B unit :=
  pin <- get_strongPullupPin;;
  if pin <? 0 then ret tt
  else pinMode_OUTPUT pin;; digitalWrite pin (if on then true else false).

(** *** Scratchpad and power supply *)

(** [for (i = 0; i < n; i++) buffer[i] = oneWire.read();] *)
Fixpoint read_buffer (n : nat) : M B (list Z) :=
  match n with
  | O => ret []
  | S n' => v <- oneWire_read;; rest <- read_buffer n';; ret (v :: rest)
  end.

(** Result: the returned flag and the caller's [buffer]. *)
Definition readScratchpad (addr : ROM) : M B (bool * list Z) :=
  oneWire_reset;;
  oneWire_select addr;;
  oneWire_write 190 false;;
  buffer <- read_buffer 9;;
  let crcCalculated := crc8 buffer 8 in
  if negb (crcCalculated =? nth 8 buffer 0) then ret (false, buffer)
  else ret (true, buffer).

Definition writeScratchpad (addr : ROM) (th tl config : Z) : M B bool :=
  oneWire_reset;;
  oneWire_select addr;;
  oneWire_write 78 false;;
  oneWire_write (u8 th) false;;
  oneWire_write (u8 tl) false;;
  oneWire_write config false;;
  r <- readScratchpad addr;;
  let sp := snd r in
  if negb (fst r) then ret false
  else if negb (nth 2 sp 0 =? u8 th) || negb (nth 3 sp 0 =? u8 tl)
          || negb (nth 4 sp 0 =? u8 config)
  then ret false
  else ret true.

(** Result: the returned flag and the caller's [externalPowered]. *)
Definition readPowerSupply (addr : ROM) (externalPowered : bool) : M B (bool * bool) :=
  oneWire_reset;;
  oneWire_select addr;;
  oneWire_write 180 false;;
  v <- oneWire_read;;
  ret (true, v =? 1).

Definition copyScratchpad (addr : ROM) : M B bool :=
  oneWire_reset;;
  oneWire_select addr;;
  oneWire_write 72 false;;
  p <- readPowerSupply addr true;;
  let external := snd p in
  pin <- get_strongPullupPin;;
  when (negb external && (0 <=? pin)) (_strongPullup true);;
  delay 11;;
  when (negb external && (0 <=? pin)) (_strongPullup false);;
  ret true.

Definition recallE2 (addr : ROM) : M B bool :=
  oneWire_reset;;
  oneWire_select addr;;
  oneWire_write 184 false;;
  r <- readScratchpad addr;;
  if negb (fst r) then ret false else ret true.

Definition isParasitePower (addr : ROM) : M B bool :=
  p <- readPowerSupply addr true;;
  if negb (fst p) then ret false else ret (negb (snd p)).

(** *** Alarms and resolution *)

(** Result: the returned flag and the caller's [th] and [tl]. *)
Definition getAlarms (addr : ROM) (th tl : Z) : M B (bool * (Z * Z)) :=
  r <- readScratchpad addr;;
  let sp := snd r in
  if negb (fst r) then ret (false, (th, tl))
  else ret (true, (i8 (nth 2 sp 0), i8 (nth 3 sp 0))).

Definition setAlarms (addr : ROM) (th tl : Z) (persistToEeprom : bool) : M B bool :=
  r <- readScratchpad addr;;
  if negb (fst r) then ret false
  else
    let cfg := nth 4 (snd r) 0 in
    ok <- writeScratchpad addr th tl cfg;;
    if negb ok then ret false
    else if persistToEeprom then copyScratchpad addr
    else ret true.

Definition getResolution (addr : ROM) : M B Z :=
  r <- readScratchpad addr;;
  if negb (fst r) then ret 0
  else
    let cfg := nth 4 (snd r) 0 in
    let r := Z.land cfg 96 in
    if r =? 0 then ret 9
    else if r =? 32 then ret 10
    else if r =? 64 then ret 11
    else if r =? 96 then ret 12
    else ret 12.

Definition setResolution (addr : ROM) (resolution : Z) (persistToEeprom : bool)
  : M B bool :=
  if (resolution <? 9) || (resolution >? 12) then ret false
  else
    r <- readScratchpad addr;;
    if negb (fst r) then ret false
    else
      let sp := snd r in
      let th := i8 (nth 2 sp 0) in
      let tl := i8 (nth 3 sp 0) in
      let rbits := match resolution with
                   | 9 => 0
                   | 10 => 32
                   | 11 => 64
                   | 12 => 96
                   | _ => 0
                   end in
      let config := Z.lor rbits 31 in
      ok <- writeScratchpad addr th tl config;;
      if negb ok then ret false
      else if persistToEeprom
      then (c <- copyScratchpad addr;; if negb c then ret false else ret true)
      else ret true.

(** *** Temperature *)

(** [(int16_t)((scratch[1] << 8) | scratch[0])] *)
Definition raw_of (scratch : list Z) : Z :=
  i16 (Z.lor (Z.shiftl (nth 1 scratch 0) 8) (nth 0 scratch 0)).

(** Result: the returned flag and the caller's [raw]. *)
Definition readRawTemperature (addr : ROM) (raw : Z) : M B (bool * Z) :=
  r <- readScratchpad addr;;
  if negb (fst r) then ret (false, raw)
  else ret (true, raw_of (snd r)).

Definition readTemperature (addr : ROM) : M B Float32.float :=
  oneWire_reset;;
  oneWire_select addr;;
  oneWire_write 68 false;;
  res <- getResolution addr;;
  let res := if (res <? 9) || (res >? 12) then 12 else res in
  p <- readPowerSupply addr true;;
  let extKnown := fst p in
  let external := snd p in
  pin <- get_strongPullupPin;;
  when (extKnown && negb external && (0 <=? pin)) (_strongPullup true);;
  delay (_conversionDelayMs res);;
  when (extKnown && negb external && (0 <=? pin)) (_strongPullup false);;
  r <- readScratchpad addr;;
  if negb (fst r) then ret Float32.NAN
  else
    let raw := raw_of (snd r) in
    let tempC := Float32.div (Float32.of_int raw) Float32.sixteen in
    ret tempC.

(** The steps of [readTemperature] before the resolution is read, and
    before the scratchpad is read, named for the statements about them. *)
Definition readTemperature_convert (addr : ROM) : M B unit :=
  oneWire_reset;;
  oneWire_select addr;;
  oneWire_write 68 false.

Definition readTemperature_wait (addr : ROM) : M B unit :=
  readTemperature_convert addr;;
  res <- getResolution addr;;
  let res := if (res <? 9) || (res >? 12) then 12 else res in
  p <- readPowerSupply addr true;;
  let extKnown := fst p in
  let external := snd p in
  pin <- get_strongPullupPin;;
  when (extKnown && negb external && (0 <=? pin)) (_strongPullup true);;
  delay (_conversionDelayMs res);;
  when (extKnown && negb external && (0 <=? pin)) (_strongPullup false).

(** *** Discovery *)

(** The body of [while (oneWire.search(addr))]: [true] when the loop has
    ended, [false] when [fuel] iterations did not end it. *)
Fixpoint searchDevices_while (fuel : nat) : M B bool :=
  match fuel with
  | O => ret false
  | S fuel' =>
      found <- oneWire_search false;;
      match found with
      | None => ret true
      | Some addr =>
          n <- get_devices;;
          if n <? DS18B20_MAX_DEVICES then
            store_address n addr;;
            (if negb (crc8 addr 7 =? nth 7 addr 0) then ret tt
             else set_devices (u8 (n + 1)));;
            searchDevices_while fuel'
          else ret true
      end
  end.

(** [None]: the loop did not end within [fuel] iterations. *)
Definition searchDevices (fuel : nat) : M B (option Z) :=
  oneWire_reset_search;;
  set_devices 0;;
  ended <- searchDevices_while fuel;;
  if ended then (oneWire_reset_search;; n <- get_devices;; ret (Some n))
  else ret None.

Definition begin (fuel : nat) : M B (option bool) :=
  oneWire_reset_search;;
  n <- searchDevices fuel;;
  match n with
  | Some n => set_devices n;; ret (Some (0 <? n))
  | None => ret None
  end.

(** Result: the returned flag and the caller's [addr]. *)
Definition getAddress (index : Z) (addr : ROM) : M B (bool * ROM) :=
  n <- get_devices;;
  if n <=? index then ret (false, addr)
  else fun s => ((true, nth (Z.to_nat index) (_addresses s) []), s).

(** The device registry a caller can reach through [getAddress]. *)
Definition registry (s : DS18B20_7semi B) : list ROM :=
  take (Z.to_nat (_devices s)) (_addresses s).

(** *** Alarm search and ROM packing *)

(** Result: the returned flag and the caller's [foundAddr]; a search that
    reports no device leaves the buffer as it was. *)
Definition alarmSearch (foundAddr : ROM) : M B (bool * ROM) :=
  oneWire_reset_search;;
  first <- oneWire_search false;;
  match first with
  | None => ret (false, foundAddr)
  | Some addr1 =>
      oneWire_reset_search;;
      second <- oneWire_search true;;
      match second with
      | None => ret (false, addr1)
      | Some addr2 =>
          if negb (crc8 addr2 7 =? nth 7 addr2 0) then ret (false, addr2)
          else ret (true, addr2)
      end
  end.

(** [for (int i = 7; i >= 0; --i) v = (v << 8) | addr[i];] *)
Definition getROM64 (addr : ROM) : Z :=
  fold_left (fun v i => u64 (Z.lor (Z.shiftl v 8) (nth i addr 0)))
            [7; 6; 5; 4; 3; 2; 1; 0]%nat 0.

(** *** What a call may change *)

(** A call that moves the bus, adds hardware actions that all pass [Q], and
    leaves [_devices], [_addresses] and the two pin numbers as they were. *)
Definition only (Q : Event -> bool) {A} (m : M B A) : Prop :=
  forall s, exists b evs,
    state_after m s = advance b evs s /\ forallb Q evs = true.

(** *** The transactions as the wire sees them *)

Fixpoint bus_reads (n : nat) (b : B) : list Z * B :=
  match n with
  | O => ([], b)
  | S n' =>
      let r := ow_read b in
      let rs := bus_reads n' (snd r) in
      (fst r :: fst rs, snd rs)
  end.

(** Reset, select, Read Scratchpad (0xBE), nine reads. *)
Definition bus_read_scratchpad (addr : ROM) (b : B) : list Z * B :=
  bus_reads 9 (ow_write 190 false (ow_select addr (snd (ow_reset b)))).

(** Reset, select, Write Scratchpad (0x4E), three bytes. *)
Definition bus_write_scratchpad (addr : ROM) (th tl cfg : Z) (b : B) : B :=
  ow_write cfg false
    (ow_write tl false
       (ow_write th false
          (ow_write 78 false (ow_select addr (snd (ow_reset b)))))).

(** Reset, select, Read Power Supply (0xB4), one read. *)
Definition bus_power_query (addr : ROM) (b : B) : Z * B :=
  ow_read (ow_write 180 false (ow_select addr (snd (ow_reset b)))).

(** The nine bytes a scratchpad read clocks out of the bus in state [b],
    and the byte a power-supply query reads there. *)
Definition scratch_bytes (addr : ROM) (b : B) : list Z :=
  map u8 (fst (bus_read_scratchpad addr b)).

Definition power_byte (addr : ROM) (b : B) : Z :=
  u8 (fst (bus_power_query addr b)).

(** The bus search reports "no more devices" within [fuel] calls. *)
Fixpoint bus_search_ends (fuel : nat) (b : B) : bool :=
  match fuel with
  | O => false
  | S fuel' =>
      match fst (ow_search false b) with
      | None => true
      | Some _ => bus_search_ends fuel' (snd (ow_search false b))
      end
  end.

(** A device at [addr] whose scratchpad reads succeed and whose scratchpad
    writes are echoed back faithfully: [pad b] is the 9-byte scratchpad the
    device holds in bus state [b]. *)
Record FaithfulScratchpad (addr : ROM) (pad : B -> list Z) : Prop := {
  pad_length : forall b, length (pad b) = 9%nat;
  pad_bytes : forall b, Forall is_u8 (pad b);
  pad_crc : forall b, crc8 (pad b) 8 = nth 8 (pad b) 0;
  pad_read : forall b,
    fst (bus_read_scratchpad addr b) = pad b /\
    pad (snd (bus_read_scratchpad addr b)) = pad b;
  pad_write : forall b th tl cfg,
    is_u8 th -> is_u8 tl -> is_u8 cfg ->
    let b' := bus_write_scratchpad addr th tl cfg b in
    nth 2 (pad b') 0 = th /\ nth 3 (pad b') 0 = tl /\ nth 4 (pad b') 0 = cfg
}.

End Driver.

(** ** Bus transports to run the driver on *)

(** One DS18B20 alone on the wire: it answers whatever address is selected,
    keeps the three bytes a Write Scratchpad sends, and appends the CRC to
    the scratchpad it delivers.  The search enumerates [roms] in order. *)
Module Sim.

Inductive Phase : Type :=
| Idle
| Selected
| ReadingScratchpad (i : nat)
| WritingScratchpad (i : nat)
| PowerQuery.

Record Bus : Type := mkBus {
  phase : Phase;
  temp_lsb : Z;
  temp_msb : Z;
  th_reg : Z;
  tl_reg : Z;
  config_reg : Z;
  power : Z;
  roms : list ROM;
  cursor : nat
}.

Definition data (b : Bus) : list Z :=
  [u8 (temp_lsb b); u8 (temp_msb b); u8 (th_reg b); u8 (tl_reg b);
   u8 (config_reg b); 255; 12; 16].

Definition scratchpad (b : Bus) : list Z := data b ++ [crc8 (data b) 8].

Definition at_phase (p : Phase) (b : Bus) : Bus :=
  mkBus p (temp_lsb b) (temp_msb b) (th_reg b) (tl_reg b) (config_reg b)
        (power b) (roms b) (cursor b).

Definition at_cursor (c : nat) (b : Bus) : Bus :=
  mkBus (phase b) (temp_lsb b) (temp_msb b) (th_reg b) (tl_reg b) (config_reg b)
        (power b) (roms b) c.

Definition reset (b : Bus) : bool * Bus := (true, at_phase Idle b).

Definition select (addr : ROM) (b : Bus) : Bus := at_phase Selected b.

Definition write (v : Z) (pw : bool) (b : Bus) : Bus :=
  match phase b with
  | Selected =>
      match v with
      | 190 => at_phase (ReadingScratchpad 0) b
      | 78 => at_phase (WritingScratchpad 0) b
      | 180 => at_phase PowerQuery b
      | _ => at_phase Idle b
      end
  | WritingScratchpad 0 =>
      mkBus (WritingScratchpad 1) (temp_lsb b) (temp_msb b) (u8 v) (tl_reg b)
            (config_reg b) (power b) (roms b) (cursor b)
  | WritingScratchpad 1 =>
      mkBus (WritingScratchpad 2) (temp_lsb b) (temp_msb b) (th_reg b) (u8 v)
            (config_reg b) (power b) (roms b) (cursor b)
  | WritingScratchpad _ =>
      mkBus Idle (temp_lsb b) (temp_msb b) (th_reg b) (tl_reg b)
            (u8 v) (power b) (roms b) (cursor b)
  | _ => b
  end.

Definition read (b : Bus) : Z * Bus :=
  match phase b with
  | ReadingScratchpad i =>
      (nth i (scratchpad b) 255,
       at_phase (if (i <? 8)%nat then ReadingScratchpad (S i) else Idle) b)
  | PowerQuery => (power b, b)
  | _ => (255, b)
  end.

Definition reset_search (b : Bus) : Bus := at_cursor 0 b.

Definition search (alarm : bool) (b : Bus) : option ROM * Bus :=
  if alarm then (None, b)
  else match roms b !! cursor b with
       | Some r => (Some r, at_cursor (S (cursor b)) b)
       | None => (None, at_cursor 0 b)
       end.

#[global] Instance bus : OneWire Bus := {
  ow_reset := reset;
  ow_select := select;
  ow_write := write;
  ow_read := read;
  ow_reset_search := reset_search;
  ow_search := search
}.

(** A ROM code of family 0x28 with serial number [n] and its CRC. *)
Definition rom (n : Z) : ROM :=
  let body := [40; u8 n; 0; 0; 0; 0; 0] in body ++ [crc8 body 7].

(** A device whose temperature register holds [msb], [lsb], with thresholds
    75 and 70 and 12-bit resolution, which answers the power-supply query
    with [pw]; the search finds [n] ROM codes. *)
Definition device (msb lsb pw : Z) (n : nat) : Bus :=
  mkBus Idle lsb msb 75 70 127 pw (map (fun i => rom (Z.of_nat i)) (seq 0 n)) 0.

End Sim.

(** A wire on which nothing answers the commands: reads deliver the scripted
    bytes one after the other, then 0xFF, the level of the idle line. *)
Module Script.

#[global] Instance bus : OneWire (list Z) := {
  ow_reset := fun b => (false, b);
  ow_select := fun _ b => b;
  ow_write := fun _ _ b => b;
  ow_read := fun b => match b with
                      | [] => (255, [])
                      | v :: rest => (v, rest)
                      end;
  ow_reset_search := fun b => b;
  ow_search := fun _ b => (None, b)
}.

End Script.

(** A wire that answers the searches only: a plain search walks the ROM codes
    [present], an alarm search walks the codes [alarmed]; [reset_search]
    starts either one over. *)
Module Alarms.

Record Bus := mkBus {
  present : list ROM;
  alarmed : list ROM;
  cursor : nat
}.

Definition reset_search (b : Bus) : Bus := mkBus (present b) (alarmed b) 0.

Definition search (alarm : bool) (b : Bus) : option ROM * Bus :=
  match (if alarm then alarmed b else present b) !! cursor b with
  | Some r => (Some r, mkBus (present b) (alarmed b) (S (cursor b)))
  | None => (None, reset_search b)
  end.

#[global] Instance bus : OneWire Bus := {
  ow_reset := fun b => (true, b);
  ow_select := fun _ b => b;
  ow_write := fun _ _ b => b;
  ow_read := fun b => (255, b);
  ow_reset_search := reset_search;
  ow_search := search
}.

End Alarms.

(** ** Concrete set-ups *)

Module Example.

Definition addr : ROM := Sim.rom 0.

Definition blank : list ROM := replicate 16 [].

(** A parasite-powered probe at 25.0625 degrees (register 0x0191), driver on
    data pin 2 with the strong pull-up on pin 5. *)
Definition parasite_probe : DS18B20_7semi Sim.Bus :=
  DS18B20_new (Sim.device 1 145 0 1) blank 2 5.

(** A wire that delivers a scratchpad with its CRC, and the same bytes with
    bit 0 of the first one inverted. *)
Definition clean_read : DS18B20_7semi (list Z) :=
  DS18B20_new [145; 1; 75; 70; 127; 255; 12; 16; 112] blank 2 5.

Definition flipped_read : DS18B20_7semi (list Z) :=
  DS18B20_new [144; 1; 75; 70; 127; 255; 12; 16; 112] blank 2 5.

(** An externally powered probe at -10.125 degrees (register 0xFF5E), no
    pull-up pin. *)
Definition cold_probe : DS18B20_7semi Sim.Bus :=
  DS18B20_new (Sim.device 255 94 1 1) blank 2 (-1).


(** Nothing on the wire; the strong pull-up is on pin 5. *)
Definition empty_wire : DS18B20_7semi (list Z) :=
  DS18B20_new [] blank 2 5.

(** Two devices on the wire, the second one in alarm. *)
Definition alarm_wire : DS18B20_7semi Alarms.Bus :=
  DS18B20_new (Alarms.mkBus [Sim.rom 0; Sim.rom 1] [Sim.rom 1] 0) blank 2 (-1).

End Example.

(* ===================================================================== *)
(** * Part II: properties                                                 *)
(* ===================================================================== *)

(** ** Machine integers *)

Module IntFacts.

Lemma u8_is_u8 z : is_u8 (u8 z).
Proof. unfold is_u8, u8. apply Z.mod_pos_bound. lia. Qed.

Lemma u8_id z : is_u8 z -> u8 z = z.
Proof. unfold is_u8, u8. intros Hz. apply Z.mod_small. exact Hz. Qed.

Lemma i8_u8 z : is_i8 z -> i8 (u8 z) = z.
Proof.
  unfold is_i8, i8, u8. intros Hz.
  rewrite Zplus_mod_idemp_l.
  rewrite Z.mod_small by lia. lia.
Qed.

Lemma u8_i8 z : is_u8 z -> u8 (i8 z) = z.
Proof.
  unfold is_u8, i8, u8. intros Hz.
  rewrite Zminus_mod_idemp_l.
  replace (z + 128 - 128) with z by lia.
  apply Z.mod_small. exact Hz.
Qed.

Lemma all_u8_complete z : is_u8 z -> In z all_u8.
Proof.
  unfold is_u8, all_u8. intros Hz.
  apply in_map_iff. exists (Z.to_nat z). split; [lia|].
  apply in_seq. lia.
Qed.

(** A boolean test that holds on the enumeration holds of every byte. *)
Lemma u8_forall (P : Z -> bool) :
  forallb P all_u8 = true -> forall x, is_u8 x -> P x = true.
Proof.
  intros Hall x Hx.
  rewrite forallb_forall in Hall. apply Hall, all_u8_complete, Hx.
Qed.

Lemma u8_forall2 (P : Z -> Z -> bool) :
  forallb (fun x => forallb (P x) all_u8) all_u8 = true ->
  forall x y, is_u8 x -> is_u8 y -> P x y = true.
Proof.
  intros Hall x y Hx Hy.
  apply (u8_forall (P x)); [|exact Hy].
  apply (u8_forall (fun x => forallb (P x) all_u8)); assumption.
Qed.

Lemma bit_index_cases k : 0 <= k < 8 ->
  k = 0 \/ k = 1 \/ k = 2 \/ k = 3 \/ k = 4 \/ k = 5 \/ k = 6 \/ k = 7.
Proof. lia. Qed.

Lemma lxor_cancel_r a a' b : Z.lxor a b = Z.lxor a' b -> a = a'.
Proof.
  intros Heq.
  rewrite <- (Z.lxor_0_r a), <- (Z.lxor_0_r a'), <- (Z.lxor_nilpotent b).
  rewrite <- !Z.lxor_assoc, Heq. reflexivity.
Qed.

Lemma lxor_cancel_l a b b' : Z.lxor a b = Z.lxor a b' -> b = b'.
Proof. rewrite !(Z.lxor_comm a). apply lxor_cancel_r. Qed.

Lemma flip_bit_is_u8 k v : 0 <= k < 8 -> is_u8 v -> is_u8 (flip_bit k v).
Proof.
  intros Hk Hv.
  assert (Hb : (0 <=? flip_bit k v) && (flip_bit k v <? 256) = true).
  { apply (u8_forall (fun v => (0 <=? flip_bit k v) && (flip_bit k v <? 256)));
      [|exact Hv].
    destruct (bit_index_cases k Hk) as [->|[->|[->|[->|[->|[->|[->| ->]]]]]]];
      vm_compute; reflexivity. }
  apply andb_true_iff in Hb. unfold is_u8. lia.
Qed.

Lemma flip_bit_changes k v : 0 <= k < 8 -> flip_bit k v <> v.
Proof.
  unfold flip_bit. intros Hk Heq.
  assert (Hz : Z.shiftl 1 k = 0).
  { apply (lxor_cancel_l v). rewrite Z.lxor_0_r. exact Heq. }
  rewrite Z.shiftl_1_l in Hz.
  pose proof (Z.pow_pos_nonneg 2 k). lia.
Qed.

End IntFacts.
Import IntFacts.

(** ** CRC-8 *)

Module CRCFacts.

Lemma crc8_byte_is_u8 c b : is_u8 c -> is_u8 b -> is_u8 (crc8_byte c b).
Proof.
  intros Hc Hb.
  assert (Ht : (0 <=? crc8_byte c b) && (crc8_byte c b <? 256) = true).
  { apply (u8_forall2 (fun c b => (0 <=? crc8_byte c b) && (crc8_byte c b <? 256)));
      [vm_compute; reflexivity | exact Hc | exact Hb]. }
  apply andb_true_iff in Ht. unfold is_u8. lia.
Qed.

Lemma lxor_is_u8 c b : is_u8 c -> is_u8 b -> is_u8 (Z.lxor c b).
Proof.
  intros Hc Hb.
  assert (Ht : (0 <=? Z.lxor c b) && (Z.lxor c b <? 256) = true).
  { apply (u8_forall2 (fun c b => (0 <=? Z.lxor c b) && (Z.lxor c b <? 256)));
      [vm_compute; reflexivity | exact Hc | exact Hb]. }
  apply andb_true_iff in Ht. unfold is_u8. lia.
Qed.

(** The register and the incoming byte enter the update through their
    exclusive or only. *)
Lemma crc8_byte_lxor c b :
  is_u8 c -> is_u8 b -> crc8_byte c b = crc8_byte (Z.lxor c b) 0.
Proof.
  intros Hc Hb. apply Z.eqb_eq.
  apply (u8_forall2 (fun c b => crc8_byte c b =? crc8_byte (Z.lxor c b) 0));
    [vm_compute; reflexivity | exact Hc | exact Hb].
Qed.

(** The update of the register by a zero byte is one-to-one. *)
Lemma crc8_byte_0_inj x y :
  is_u8 x -> is_u8 y -> crc8_byte x 0 = crc8_byte y 0 -> x = y.
Proof.
  intros Hx Hy Heq.
  assert (Ht : implb (crc8_byte x 0 =? crc8_byte y 0) (x =? y) = true).
  { apply (u8_forall2 (fun x y => implb (crc8_byte x 0 =? crc8_byte y 0) (x =? y)));
      [vm_compute; reflexivity | exact Hx | exact Hy]. }
  rewrite Heq, Z.eqb_refl in Ht. simpl in Ht.
  apply Z.eqb_eq, Ht.
Qed.

Lemma crc8_byte_inj_state c c' b :
  is_u8 c -> is_u8 c' -> is_u8 b -> crc8_byte c b = crc8_byte c' b -> c = c'.
Proof.
  intros Hc Hc' Hb Heq.
  rewrite (crc8_byte_lxor c b), (crc8_byte_lxor c' b) in Heq by assumption.
  apply crc8_byte_0_inj in Heq; try (apply lxor_is_u8; assumption).
  eapply lxor_cancel_r, Heq.
Qed.

Lemma crc8_byte_inj_byte c b b' :
  is_u8 c -> is_u8 b -> is_u8 b' -> crc8_byte c b = crc8_byte c b' -> b = b'.
Proof.
  intros Hc Hb Hb' Heq.
  rewrite (crc8_byte_lxor c b), (crc8_byte_lxor c b') in Heq by assumption.
  apply crc8_byte_0_inj in Heq; try (apply lxor_is_u8; assumption).
  eapply lxor_cancel_l, Heq.
Qed.

Lemma fold_crc8_is_u8 l : forall c,
  Forall is_u8 l -> is_u8 c -> is_u8 (fold_left crc8_byte l c).
Proof.
  induction l as [|b l IH]; intros c Hl Hc; simpl; [exact Hc|].
  inversion Hl; subst. apply IH; [assumption|].
  apply crc8_byte_is_u8; assumption.
Qed.

(** Two different registers stay different over the same bytes. *)
Lemma fold_crc8_inj_state l : forall c c',
  Forall is_u8 l -> is_u8 c -> is_u8 c' ->
  fold_left crc8_byte l c = fold_left crc8_byte l c' -> c = c'.
Proof.
  induction l as [|b l IH]; intros c c' Hl Hc Hc' Heq; simpl in Heq; [exact Heq|].
  inversion Hl; subst.
  apply IH in Heq; try assumption; try (apply crc8_byte_is_u8; assumption).
  eapply crc8_byte_inj_state; eassumption.
Qed.

(** A change of one byte changes the checksum. *)
Lemma fold_crc8_one_byte l : forall i v c,
  Forall is_u8 l -> is_u8 v -> is_u8 c ->
  (i < length l)%nat -> v <> nth i l 0 ->
  fold_left crc8_byte (<[i := v]> l) c <> fold_left crc8_byte l c.
Proof.
  induction l as [|b l IH]; intros i v c Hl Hv Hc Hi Hne; simpl in Hi; [lia|].
  inversion Hl; subst.
  destruct i as [|i]; simpl in *.
  - intros Heq. apply fold_crc8_inj_state in Heq;
      try assumption; try (apply crc8_byte_is_u8; assumption).
    apply crc8_byte_inj_byte in Heq; try assumption. contradiction.
  - apply IH; try assumption; [apply crc8_byte_is_u8; assumption | lia].
Qed.

Lemma crc8_is_u8 data len : Forall is_u8 data -> is_u8 (crc8 data len).
Proof.
  intros Hd. unfold crc8. apply fold_crc8_is_u8.
  - apply Forall_take, Hd.
  - unfold is_u8. lia.
Qed.

(** One inverted bit among the first [len] bytes changes the CRC-8. *)
Lemma crc8_flip_at data len i k :
  Forall is_u8 data -> (i < len)%nat -> (len <= length data)%nat -> 0 <= k < 8 ->
  crc8 (flip_at i k data) len <> crc8 data len.
Proof.
  intros Hd Hi Hlen Hk. unfold crc8, flip_at.
  rewrite take_insert_lt by exact Hi.
  assert (Hnth : nth i (take len data) 0 = nth i data 0).
  { rewrite <- (take_drop len data) at 2.
    rewrite app_nth1; [reflexivity|]. rewrite length_take. lia. }
  apply fold_crc8_one_byte.
  - apply Forall_take, Hd.
  - apply flip_bit_is_u8; [exact Hk|].
    rewrite List.Forall_forall in Hd. apply Hd, nth_In. lia.
  - unfold is_u8. lia.
  - rewrite length_take. lia.
  - rewrite Hnth. apply flip_bit_changes, Hk.
Qed.

End CRCFacts.
Import CRCFacts.

(** ** Running the member functions *)

Section DriverFacts.

Context {B : Type} `{OneWire B}.
Local Open Scope ds_scope.

Lemma advance_advance b1 evs1 b2 evs2 (s : DS18B20_7semi B) :
  advance b2 evs2 (advance b1 evs1 s) = advance b2 (evs1 ++ evs2) s.
Proof. unfold advance. simpl. rewrite <- app_assoc. reflexivity. Qed.

Lemma advance_nil (s : DS18B20_7semi B) : advance (oneWire s) [] s = s.
Proof. destruct s. unfold advance. simpl. rewrite app_nil_r. reflexivity. Qed.

Lemma actions_during_advance {A} (m : M B A) s r b evs :
  m s = (r, advance b evs s) -> actions_during m s = evs.
Proof.
  intros Hrun. unfold actions_during. rewrite Hrun. simpl.
  apply drop_app_length.
Qed.

Lemma bus_reads_length n : forall b : B, length (fst (bus_reads n b)) = n.
Proof. induction n as [|n IH]; intros b; simpl; [reflexivity|]. rewrite IH. reflexivity. Qed.

Lemma read_buffer_run n : forall s : DS18B20_7semi B,
  read_buffer n s =
    (map u8 (fst (bus_reads n (oneWire s))),
     advance (snd (bus_reads n (oneWire s)))
             (map EvRead (map u8 (fst (bus_reads n (oneWire s))))) s).
Proof.
  induction n as [|n IH]; intros s; simpl.
  - unfold ret. rewrite advance_nil. reflexivity.
  - cbv [bind oneWire_read with_bus ret]. cbn [fst snd].
    rewrite IH. cbn [fst snd oneWire advance map].
    rewrite advance_advance. reflexivity.
Qed.

Lemma scratch_bytes_length addr (b : B) : length (scratch_bytes addr b) = 9%nat.
Proof.
  unfold scratch_bytes, bus_read_scratchpad. rewrite length_map.
  apply bus_reads_length.
Qed.

Lemma scratch_bytes_u8 addr (b : B) : Forall is_u8 (scratch_bytes addr b).
Proof.
  unfold scratch_bytes. apply List.Forall_forall. intros x Hx.
  apply in_map_iff in Hx. destruct Hx as [y [<- _]]. apply u8_is_u8.
Qed.

Lemma readScratchpad_run addr (s : DS18B20_7semi B) :
  readScratchpad addr s =
    ((scratchpad_crc_ok (scratch_bytes addr (oneWire s)),
      scratch_bytes addr (oneWire s)),
     advance (snd (bus_read_scratchpad addr (oneWire s)))
             ([EvReset; EvSelect addr; EvWrite 190 false]
                ++ map EvRead (scratch_bytes addr (oneWire s))) s).
Proof.
  cbv [readScratchpad bind oneWire_reset oneWire_select oneWire_write with_bus].
  cbn [fst snd]. rewrite read_buffer_run. cbn [fst snd oneWire advance].
  rewrite !advance_advance. cbn [app].
  fold (bus_read_scratchpad addr (oneWire s)).
  fold (scratch_bytes addr (oneWire s)).
  unfold scratchpad_crc_ok, ret.
  destruct (crc8 (scratch_bytes addr (oneWire s)) 8
            =? nth 8 (scratch_bytes addr (oneWire s)) 0); reflexivity.
Qed.

Lemma readPowerSupply_run addr e (s : DS18B20_7semi B) :
  readPowerSupply addr e s =
    ((true, power_byte addr (oneWire s) =? 1),
     advance (snd (bus_power_query addr (oneWire s)))
             [EvReset; EvSelect addr; EvWrite 180 false;
              EvRead (power_byte addr (oneWire s))] s).
Proof.
  cbv [readPowerSupply bind oneWire_reset oneWire_select oneWire_write
       oneWire_read with_bus ret].
  cbn [fst snd oneWire advance]. rewrite !advance_advance. reflexivity.
Qed.

Lemma strongPullup_run on (s : DS18B20_7semi B) :
  _strongPullup on s =
    (tt, if _strongPullupPin s <? 0 then s
         else advance (oneWire s) (pullup (_strongPullupPin s) on) s).
Proof.
  cbv [_strongPullup bind get_strongPullupPin]. cbn [fst snd].
  destruct (_strongPullupPin s <? 0); [reflexivity|].
  cbv [bind pinMode_OUTPUT digitalWrite with_bus]. cbn [fst snd oneWire advance].
  rewrite advance_advance. destruct on; reflexivity.
Qed.

(** A guarded [_strongPullup], as [copyScratchpad] and [readTemperature]
    call it. *)
Lemma guarded_pullup_run (c on : bool) pin (s : DS18B20_7semi B) :
  _strongPullupPin s = pin ->
  when (c && (0 <=? pin)) (_strongPullup on) s =
    (tt, advance (oneWire s) (if c && (0 <=? pin) then pullup pin on else []) s).
Proof.
  intros <-.
  unfold when. destruct (c && (0 <=? _strongPullupPin s)) eqn:Hc.
  - rewrite strongPullup_run.
    apply andb_true_iff in Hc. destruct Hc as [_ Hpin].
    apply Z.leb_le in Hpin.
    destruct (_strongPullupPin s <? 0) eqn:Hneg; [apply Z.ltb_lt in Hneg; lia|].
    reflexivity.
  - unfold ret. rewrite advance_nil. reflexivity.
Qed.

Lemma copyScratchpad_run addr (s : DS18B20_7semi B) :
  let b1 := ow_write 72 false (ow_select addr (snd (ow_reset (oneWire s)))) in
  let v := power_byte addr b1 in
  let pin := _strongPullupPin s in
  let parasite := negb (v =? 1) && (0 <=? pin) in
  copyScratchpad addr s =
    (true,
     advance (snd (bus_power_query addr b1))
             ([EvReset; EvSelect addr; EvWrite 72 false;
               EvReset; EvSelect addr; EvWrite 180 false; EvRead v]
                ++ (if parasite then pullup pin true else [])
                ++ [EvDelay 11]
                ++ (if parasite then pullup pin false else [])) s).
Proof.
  intros b1 v pin parasite.
  cbv [copyScratchpad bind oneWire_reset oneWire_select oneWire_write with_bus
       get_strongPullupPin delay ret].
  cbn [fst snd]. rewrite readPowerSupply_run. cbn [fst snd oneWire advance].
  rewrite !advance_advance.
  rewrite (guarded_pullup_run _ true (_strongPullupPin s)) by reflexivity.
  cbn [fst snd oneWire advance]. rewrite !advance_advance.
  rewrite (guarded_pullup_run _ false (_strongPullupPin s)) by reflexivity.
  cbn [fst snd oneWire advance]. rewrite !advance_advance.
  fold b1. fold v. fold pin. fold parasite.
  f_equal. f_equal. cbn [app]. rewrite <- !app_assoc. reflexivity.
Qed.

Lemma writeScratchpad_run addr th tl config (s : DS18B20_7semi B) :
  let bw := bus_write_scratchpad addr (u8 th) (u8 tl) config (oneWire s) in
  let sp := scratch_bytes addr bw in
  writeScratchpad addr th tl config s =
    (scratchpad_crc_ok sp && (nth 2 sp 0 =? u8 th) && (nth 3 sp 0 =? u8 tl)
       && (nth 4 sp 0 =? u8 config),
     advance (snd (bus_read_scratchpad addr bw))
             ([EvReset; EvSelect addr; EvWrite 78 false; EvWrite (u8 th) false;
               EvWrite (u8 tl) false; EvWrite config false]
                ++ [EvReset; EvSelect addr; EvWrite 190 false]
                ++ map EvRead sp) s).
Proof.
  intros bw sp.
  cbv [writeScratchpad bind oneWire_reset oneWire_select oneWire_write with_bus].
  cbn [fst snd]. rewrite readScratchpad_run. cbn [fst snd oneWire advance].
  rewrite !advance_advance.
  fold (bus_write_scratchpad addr (u8 th) (u8 tl) config (oneWire s)).
  fold bw. fold sp. unfold ret.
  destruct (scratchpad_crc_ok sp); cbn [negb andb]; [|reflexivity].
  destruct (nth 2 sp 0 =? u8 th), (nth 3 sp 0 =? u8 tl), (nth 4 sp 0 =? u8 config);
    reflexivity.
Qed.

Lemma getResolution_run addr (s : DS18B20_7semi B) :
  let sp := scratch_bytes addr (oneWire s) in
  getResolution addr s =
    ((if scratchpad_crc_ok sp
      then let r := Z.land (nth 4 sp 0) 96 in
           if r =? 0 then 9 else if r =? 32 then 10 else if r =? 64 then 11 else 12
      else 0),
     snd (readScratchpad addr s)).
Proof.
  intros sp. cbv [getResolution bind]. cbn [fst snd].
  rewrite readScratchpad_run. cbn [fst snd]. fold sp. unfold ret.
  destruct (scratchpad_crc_ok sp); cbn [negb]; [|reflexivity].
  destruct (Z.land (nth 4 sp 0) 96 =? 0); [reflexivity|].
  destruct (Z.land (nth 4 sp 0) 96 =? 32); [reflexivity|].
  destruct (Z.land (nth 4 sp 0) 96 =? 64); [reflexivity|].
  destruct (Z.land (nth 4 sp 0) 96 =? 96); reflexivity.
Qed.

Lemma getAlarms_run addr th tl (s : DS18B20_7semi B) :
  let sp := scratch_bytes addr (oneWire s) in
  getAlarms addr th tl s =
    ((if scratchpad_crc_ok sp then (true, (i8 (nth 2 sp 0), i8 (nth 3 sp 0)))
      else (false, (th, tl))),
     snd (readScratchpad addr s)).
Proof.
  intros sp. cbv [getAlarms bind]. cbn [fst snd].
  rewrite readScratchpad_run. cbn [fst snd]. fold sp. unfold ret.
  destruct (scratchpad_crc_ok sp); reflexivity.
Qed.

Lemma bind_run {A C} (m : M B A) (k : A -> M B C) s :
  bind m k s = k (fst (m s)) (snd (m s)).
Proof. reflexivity. Qed.

Lemma get_strongPullupPin_run (s : DS18B20_7semi B) :
  get_strongPullupPin s = (_strongPullupPin s, s).
Proof. reflexivity. Qed.

Lemma delay_run ms (s : DS18B20_7semi B) :
  delay ms s = (tt, advance (oneWire s) [EvDelay ms] s).
Proof. reflexivity. Qed.

Lemma readTemperature_convert_run addr (s : DS18B20_7semi B) :
  readTemperature_convert addr s =
    (tt, advance (ow_write 68 false (ow_select addr (snd (ow_reset (oneWire s)))))
                 [EvReset; EvSelect addr; EvWrite 68 false] s).
Proof.
  cbv [readTemperature_convert bind oneWire_reset oneWire_select oneWire_write
       with_bus].
  cbn [fst snd oneWire advance]. rewrite !advance_advance. reflexivity.
Qed.

Lemma fst_pair {X Y} (x : X) (y : Y) : fst (x, y) = x.
Proof. reflexivity. Qed.

Lemma snd_pair {X Y} (x : X) (y : Y) : snd (x, y) = y.
Proof. reflexivity. Qed.

Lemma oneWire_advance b evs (s : DS18B20_7semi B) : oneWire (advance b evs s) = b.
Proof. reflexivity. Qed.

Lemma strongPullupPin_advance b evs (s : DS18B20_7semi B) :
  _strongPullupPin (advance b evs s) = _strongPullupPin s.
Proof. reflexivity. Qed.

Lemma actions_advance b evs (s : DS18B20_7semi B) :
  actions (advance b evs s) = actions s ++ evs.
Proof. reflexivity. Qed.

(** One statement of a member function: run it by its lemma, then bring the
    state back to the form [advance b evs s], by rewriting only. *)
Ltac tidy :=
  cbv beta;
  rewrite ?fst_pair, ?snd_pair, ?oneWire_advance, ?strongPullupPin_advance,
          ?advance_advance.

Ltac run_with lem := rewrite lem; tidy.

Ltac step lem := rewrite bind_run; run_with lem.

Lemma readTemperature_wait_run addr (s : DS18B20_7semi B) :
  let b1 := ow_write 68 false (ow_select addr (snd (ow_reset (oneWire s)))) in
  let sp := scratch_bytes addr b1 in
  let res := result_of (getResolution addr)
                       (state_after (readTemperature_convert addr) s) in
  let b2 := snd (bus_read_scratchpad addr b1) in
  let v := power_byte addr b2 in
  let pin := _strongPullupPin s in
  let parasite := negb (v =? 1) && (0 <=? pin) in
  readTemperature_wait addr s =
    (tt,
     advance (snd (bus_power_query addr b2))
             ([EvReset; EvSelect addr; EvWrite 68 false]
                ++ ([EvReset; EvSelect addr; EvWrite 190 false] ++ map EvRead sp)
                ++ [EvReset; EvSelect addr; EvWrite 180 false; EvRead v]
                ++ (if parasite then pullup pin true else [])
                ++ [EvDelay (_conversionDelayMs
                               (if (res <? 9) || (res >? 12) then 12 else res))]
                ++ (if parasite then pullup pin false else [])) s).
Proof.
  intros b1 sp res b2 v pin parasite. unfold readTemperature_wait.
  step readTemperature_convert_run. fold b1.
  assert (Hres : fst (getResolution addr
                        (advance b1 [EvReset; EvSelect addr; EvWrite 68 false] s))
                 = res).
  { unfold res. rewrite readTemperature_convert_run. reflexivity. }
  rewrite bind_run, Hres.
  run_with getResolution_run. run_with readScratchpad_run. fold sp. fold b2.
  step readPowerSupply_run. fold v.
  step get_strongPullupPin_run.
  rewrite bind_run.
  rewrite (guarded_pullup_run _ true (_strongPullupPin s)) by reflexivity. tidy.
  step delay_run.
  rewrite (guarded_pullup_run _ false (_strongPullupPin s)) by reflexivity. tidy.
  fold pin. fold parasite.
  f_equal. f_equal. cbn [app]. rewrite <- !app_assoc. reflexivity.
Qed.

Lemma readTemperature_split addr (s : DS18B20_7semi B) :
  let r := readScratchpad addr (state_after (readTemperature_wait addr) s) in
  readTemperature addr s =
    ((if fst (fst r)
      then Float32.div (Float32.of_int (raw_of (snd (fst r)))) Float32.sixteen
      else Float32.NAN),
     snd r).
Proof.
  intros r. subst r.
  cbv [readTemperature readTemperature_wait readTemperature_convert bind].
  cbn [fst snd]. unfold ret.
  match goal with |- context [readScratchpad addr ?st] =>
    destruct (fst (fst (readScratchpad addr st))) end; reflexivity.
Qed.

End DriverFacts.

(** ** CRC tests *)

Lemma scratchpad_crc_ok_true sp :
  scratchpad_crc_ok sp = true <-> crc8 sp 8 = nth 8 sp 0.
Proof. unfold scratchpad_crc_ok. apply Z.eqb_eq. Qed.

Lemma scratchpad_crc_ok_false sp :
  scratchpad_crc_ok sp = false <-> crc8 sp 8 <> nth 8 sp 0.
Proof. unfold scratchpad_crc_ok. apply Z.eqb_neq. Qed.


(** ** Reading traces *)

Lemma delays_app evs1 evs2 : delays (evs1 ++ evs2) = delays evs1 ++ delays evs2.
Proof. unfold delays. apply omap_app. Qed.

Lemma delays_reads l : delays (map EvRead l) = [].
Proof. induction l as [|v l IH]; [reflexivity | exact IH]. Qed.

Lemma asserts_pullup_app evs1 evs2 :
  asserts_pullup (evs1 ++ evs2) = asserts_pullup evs1 || asserts_pullup evs2.
Proof. unfold asserts_pullup. apply existsb_app. Qed.

Lemma asserts_pullup_reads l : asserts_pullup (map EvRead l) = false.
Proof. induction l as [|v l IH]; [reflexivity | exact IH]. Qed.

Section Temperature.

Context {B : Type} `{OneWire B}.

(** The bus state in which [readTemperature] queries the power supply. *)
Lemma oneWire_at_power_check addr (s : DS18B20_7semi B) :
  oneWire (state_after (getResolution addr)
                       (state_after (readTemperature_convert addr) s))
  = snd (bus_read_scratchpad addr
           (ow_write 68 false (ow_select addr (snd (ow_reset (oneWire s)))))).
Proof.
  rewrite readTemperature_convert_run, snd_pair.
  rewrite getResolution_run, snd_pair, readScratchpad_run, snd_pair.
  reflexivity.
Qed.

Lemma readTemperature_actions addr (s : DS18B20_7semi B) :
  actions_during (readTemperature addr) s
  = actions_during (readTemperature_wait addr) s
      ++ actions_during (readScratchpad addr)
                        (state_after (readTemperature_wait addr) s).
Proof.
  unfold actions_during at 1.
  rewrite readTemperature_split, snd_pair.
  rewrite (actions_during_advance _ _ _ _ _ (readScratchpad_run addr _)).
  rewrite (actions_during_advance _ _ _ _ _ (readTemperature_wait_run addr s)).
  rewrite readTemperature_wait_run, snd_pair.
  rewrite readScratchpad_run, snd_pair, advance_advance, actions_advance.
  rewrite oneWire_advance. apply drop_app_length.
Qed.

Lemma readTemperature_wait_delays addr (s : DS18B20_7semi B) :
  let res := result_of (getResolution addr)
                       (state_after (readTemperature_convert addr) s) in
  delays (actions_during (readTemperature_wait addr) s)
  = [_conversionDelayMs (if (res <? 9) || (res >? 12) then 12 else res)].
Proof.
  intros res.
  rewrite (actions_during_advance _ _ _ _ _ (readTemperature_wait_run addr s)).
  fold res. rewrite !delays_app, delays_reads.
  destruct (negb _ && _); reflexivity.
Qed.

Lemma readTemperature_wait_pullup addr (s : DS18B20_7semi B) :
  let s2 := state_after (getResolution addr)
                        (state_after (readTemperature_convert addr) s) in
  asserts_pullup (actions_during (readTemperature_wait addr) s)
  = negb (power_byte addr (oneWire s2) =? 1) && (0 <=? _strongPullupPin s).
Proof.
  intros s2. unfold s2. rewrite oneWire_at_power_check.
  rewrite (actions_during_advance _ _ _ _ _ (readTemperature_wait_run addr s)).
  rewrite !asserts_pullup_app, asserts_pullup_reads.
  destruct (negb _ && _); reflexivity.
Qed.

Lemma readScratchpad_no_delay_no_pullup addr (s : DS18B20_7semi B) :
  delays (actions_during (readScratchpad addr) s) = [] /\
  asserts_pullup (actions_during (readScratchpad addr) s) = false.
Proof.
  rewrite (actions_during_advance _ _ _ _ _ (readScratchpad_run addr s)).
  rewrite delays_app, delays_reads, asserts_pullup_app, asserts_pullup_reads.
  split; reflexivity.
Qed.

(** The resolution [getResolution] reports: 0 or one of 9..12. *)
Lemma getResolution_values addr (s : DS18B20_7semi B) :
  In (result_of (getResolution addr) s) [0; 9; 10; 11; 12].
Proof.
  rewrite getResolution_run, fst_pair.
  destruct (scratchpad_crc_ok _); [|left; reflexivity].
  cbv zeta.
  destruct (_ =? 0); [right; left; reflexivity|].
  destruct (_ =? 32); [right; right; left; reflexivity|].
  destruct (_ =? 64); [right; right; right; left; reflexivity|].
  right; right; right; right; left; reflexivity.
Qed.

End Temperature.

(** ** Decoding the temperature register *)

Module DecodeFacts.

Lemma decode_check_all msb lsb :
  is_u8 msb -> is_u8 lsb -> decode_check msb lsb = true.
Proof.
  intros Hm Hl.
  apply (u8_forall2 decode_check); [vm_compute; reflexivity | exact Hm | exact Hl].
Qed.

Lemma nth_is_u8 (l : list Z) i : Forall is_u8 l -> is_u8 (nth i l 0).
Proof.
  intros Hl. destruct (Nat.lt_ge_cases i (length l)) as [Hi|Hi].
  - rewrite List.Forall_forall in Hl. apply Hl, nth_In, Hi.
  - rewrite nth_overflow by exact Hi. unfold is_u8. lia.
Qed.

Lemma raw_of_exact (scratch : list Z) :
  Forall is_u8 scratch ->
  raw_of scratch = twos_complement16 (nth 1 scratch 0) (nth 0 scratch 0) /\
  exists q,
    Float32.to_Q (Float32.div (Float32.of_int (raw_of scratch)) Float32.sixteen)
    = Some q /\ (q == raw_of scratch # 16)%Q.
Proof.
  intros Hs.
  pose proof (decode_check_all _ _ (nth_is_u8 scratch 1 Hs) (nth_is_u8 scratch 0 Hs))
    as Hc.
  unfold decode_check in Hc. fold (raw_of scratch) in Hc.
  apply andb_true_iff in Hc. destruct Hc as [Hraw Hq].
  split; [apply Z.eqb_eq, Hraw|].
  destruct (Float32.to_Q _) as [q|]; [|discriminate Hq].
  exists q. split; [reflexivity|]. apply Qeq_bool_iff, Hq.
Qed.

End DecodeFacts.
Import DecodeFacts.

(** ** Devices that keep what is written *)

Lemma map_u8_id (l : list Z) : Forall is_u8 l -> map u8 l = l.
Proof.
  induction 1 as [|x l Hx _ IH]; [reflexivity|].
  cbn [map]. rewrite IH, (u8_id x Hx). reflexivity.
Qed.

Section Faithful.

Context {B : Type} `{OneWire B}.
Variables (addr : ROM) (pad : B -> list Z).
Hypothesis device : FaithfulScratchpad addr pad.

Lemma faithful_bytes b : scratch_bytes addr b = pad b.
Proof.
  unfold scratch_bytes. rewrite (proj1 (pad_read addr pad device b)).
  apply map_u8_id, (pad_bytes addr pad device).
Qed.

Lemma faithful_pad_after_read b :
  pad (snd (bus_read_scratchpad addr b)) = pad b.
Proof. apply (pad_read addr pad device b). Qed.

Lemma faithful_crc_ok b : scratchpad_crc_ok (pad b) = true.
Proof. apply scratchpad_crc_ok_true, (pad_crc addr pad device). Qed.

Lemma faithful_nth_u8 b i : is_u8 (nth i (pad b) 0).
Proof. apply nth_is_u8, (pad_bytes addr pad device). Qed.

(** A scratchpad read succeeds, delivers the device's scratchpad and leaves
    it as it was. *)
Lemma faithful_read (s : DS18B20_7semi B) :
  exists b' evs,
    readScratchpad addr s = ((true, pad (oneWire s)), advance b' evs s) /\
    pad b' = pad (oneWire s).
Proof.
  eexists _, _. split.
  - rewrite readScratchpad_run, faithful_bytes, faithful_crc_ok. reflexivity.
  - apply faithful_pad_after_read.
Qed.

(** A scratchpad write succeeds and leaves the three bytes in the device. *)
Lemma faithful_write th tl config (s : DS18B20_7semi B) :
  is_u8 config ->
  exists b' evs,
    writeScratchpad addr th tl config s = (true, advance b' evs s) /\
    nth 2 (pad b') 0 = u8 th /\ nth 3 (pad b') 0 = u8 tl /\
    nth 4 (pad b') 0 = config.
Proof.
  intros Hcfg.
  destruct (pad_write addr pad device (oneWire s) (u8 th) (u8 tl) config
                      (u8_is_u8 th) (u8_is_u8 tl) Hcfg) as [H2 [H3 H4]].
  eexists _, _. split.
  - rewrite writeScratchpad_run, faithful_bytes, faithful_crc_ok.
    rewrite H2, H3, H4, (u8_id config Hcfg), !Z.eqb_refl. reflexivity.
  - rewrite !faithful_pad_after_read. auto.
Qed.

Lemma faithful_getResolution (s : DS18B20_7semi B) cfg r :
  nth 4 (pad (oneWire s)) 0 = cfg ->
  (let x := Z.land cfg 96 in
   if x =? 0 then 9 else if x =? 32 then 10 else if x =? 64 then 11 else 12) = r ->
  result_of (getResolution addr) s = r.
Proof.
  intros Hcfg Hr.
  rewrite getResolution_run, fst_pair, faithful_bytes, faithful_crc_ok, Hcfg.
  exact Hr.
Qed.

End Faithful.

(** ** The simulated device keeps what is written *)

Module SimFacts.

Lemma data_length b : length (Sim.data b) = 8%nat.
Proof. reflexivity. Qed.

Lemma data_bytes b : Forall is_u8 (Sim.data b).
Proof.
  unfold Sim.data.
  repeat (apply Forall_cons; split; [first [apply u8_is_u8 | unfold is_u8; lia]|]).
  apply Forall_nil_2.
Qed.

Lemma scratchpad_at_phase p b : Sim.scratchpad (Sim.at_phase p b) = Sim.scratchpad b.
Proof. reflexivity. Qed.

Lemma nth_0_singleton (x d : Z) : nth 0 [x] d = x.
Proof. reflexivity. Qed.

Lemma scratchpad_crc b : crc8 (Sim.scratchpad b) 8 = nth 8 (Sim.scratchpad b) 0.
Proof.
  unfold Sim.scratchpad, crc8.
  rewrite (take_app_length' (Sim.data b) _ 8 (data_length b)).
  rewrite app_nth2 by (rewrite data_length; lia).
  rewrite data_length, Nat.sub_diag, nth_0_singleton.
  rewrite (firstn_all2 (Sim.data b)) by (rewrite data_length; lia).
  reflexivity.
Qed.

(** Reading on from position [i] delivers the rest of the scratchpad. *)
Lemma reads_from n : forall i b,
  (i + n <= 9)%nat -> Sim.phase b = Sim.ReadingScratchpad i ->
  fst (bus_reads n b) = take n (drop i (Sim.scratchpad b)) /\
  Sim.scratchpad (snd (bus_reads n b)) = Sim.scratchpad b.
Proof.
  induction n as [|n IH]; intros i b Hi Hphase; [split; reflexivity|].
  assert (Hlook : Sim.scratchpad b !! i = Some (nth i (Sim.scratchpad b) 255)).
  { destruct (lookup_lt_is_Some_2 (Sim.scratchpad b) i) as [x Hx].
    - unfold Sim.scratchpad. rewrite length_app, data_length. simpl. lia.
    - rewrite (nth_lookup_Some _ _ 255 _ Hx). exact Hx. }
  assert (Hread : ow_read b
                  = (nth i (Sim.scratchpad b) 255,
                     Sim.at_phase (if (i <? 8)%nat then Sim.ReadingScratchpad (S i)
                                   else Sim.Idle) b)).
  { unfold ow_read, Sim.bus, Sim.read. rewrite Hphase. reflexivity. }
  cbn [bus_reads]. rewrite Hread, fst_pair, snd_pair.
  rewrite (drop_S _ _ _ Hlook). cbn [take].
  destruct n as [|n].
  - cbn [bus_reads take]. rewrite !fst_pair, !snd_pair.
    split; [reflexivity | apply scratchpad_at_phase].
  - assert (Hlt : (i <? 8)%nat = true) by (apply Nat.ltb_lt; lia).
    rewrite Hlt.
    destruct (IH (S i) (Sim.at_phase (Sim.ReadingScratchpad (S i)) b)) as [Hbytes Hpad];
      [lia | reflexivity |].
    rewrite scratchpad_at_phase in Hbytes, Hpad.
    rewrite !fst_pair, !snd_pair, Hbytes, Hpad. split; reflexivity.
Qed.

Lemma faithful addr : FaithfulScratchpad addr Sim.scratchpad.
Proof.
  constructor.
  - intros b. unfold Sim.scratchpad. rewrite length_app, data_length. reflexivity.
  - intros b. unfold Sim.scratchpad. apply Forall_app. split; [apply data_bytes|].
    apply Forall_cons. split; [apply crc8_is_u8, data_bytes | apply Forall_nil_2].
  - apply scratchpad_crc.
  - intros b. unfold bus_read_scratchpad.
    destruct (reads_from 9 0
                (ow_write 190 false (ow_select addr (snd (ow_reset b)))))
      as [Hbytes Hpad]; [lia | reflexivity |].
    rewrite Hbytes, Hpad. split; [|reflexivity].
    cbn [drop]. apply firstn_all2.
    unfold Sim.scratchpad. rewrite length_app, data_length. simpl. lia.
  - intros b th tl cfg Hth Htl Hcfg. cbv zeta.
    unfold bus_write_scratchpad, Sim.scratchpad, Sim.data.
    cbn [ow_write ow_select ow_reset Sim.bus Sim.write Sim.select Sim.reset
         Sim.at_phase Sim.phase Sim.th_reg Sim.tl_reg Sim.config_reg snd app nth].
    rewrite !(u8_id (u8 _)) by apply u8_is_u8.
    rewrite (u8_id th Hth), (u8_id tl Htl), (u8_id cfg Hcfg). auto.
Qed.

End SimFacts.

(** ** Discovery *)

Section Discovery.

Context {B : Type} `{OneWire B}.

Lemma oneWire_search_run alarm (s : DS18B20_7semi B) :
  oneWire_search alarm s
  = (fst (ow_search alarm (oneWire s)),
     advance (snd (ow_search alarm (oneWire s)))
             [EvSearch alarm (fst (ow_search alarm (oneWire s)))] s).
Proof. reflexivity. Qed.

Lemma registry_length (s : DS18B20_7semi B) :
  length (_addresses s) = 16%nat -> 0 <= _devices s <= 16 ->
  Z.of_nat (length (registry s)) = _devices s.
Proof.
  intros Hlen Hd. unfold registry. rewrite length_take, Hlen. lia.
Qed.

Lemma registry_mk (b : B) d addrs pin dpin acts :
  registry (mkDS18B20 b d addrs pin dpin acts) = take (Z.to_nat d) addrs.
Proof. reflexivity. Qed.

(** One more address in slot [_devices], counted or not. *)
Lemma take_accepted (addrs : list ROM) d addr :
  length addrs = 16%nat -> 0 <= d < 16 ->
  take (Z.to_nat (u8 (d + 1))) (<[Z.to_nat d := addr]> addrs)
  = take (Z.to_nat d) addrs ++ [addr].
Proof.
  intros Hlen Hd.
  rewrite (u8_id (d + 1)) by (unfold is_u8; lia).
  replace (Z.to_nat (d + 1)) with (S (Z.to_nat d)) by lia.
  rewrite (take_S_r _ _ addr) by (apply list_lookup_insert_eq; lia).
  rewrite take_insert_ge by lia. reflexivity.
Qed.

Lemma take_dropped (addrs : list ROM) d addr :
  take (Z.to_nat d) (<[Z.to_nat d := addr]> addrs) = take (Z.to_nat d) addrs.
Proof. apply take_insert_ge. lia. Qed.

Lemma candidates_found alarm addr evs :
  candidates (EvSearch alarm (Some addr) :: evs) = addr :: candidates evs.
Proof. reflexivity. Qed.

Lemma filter_cons_if {A} (f : A -> bool) x l :
  List.filter f (x :: l) = if f x then x :: List.filter f l else List.filter f l.
Proof. reflexivity. Qed.

(** One iteration of the loop. *)
Lemma searchDevices_while_step fuel (b : B) d addrs pin dpin acts :
  searchDevices_while (S fuel) (mkDS18B20 b d addrs pin dpin acts)
  = match fst (ow_search false b) with
    | None =>
        (true, mkDS18B20 (snd (ow_search false b)) d addrs pin dpin
                         (acts ++ [EvSearch false None]))
    | Some addr =>
        if d <? 16 then
          searchDevices_while fuel
            (mkDS18B20 (snd (ow_search false b))
                       (if rom_crc_ok addr then u8 (d + 1) else d)
                       (<[Z.to_nat d := addr]> addrs) pin dpin
                       (acts ++ [EvSearch false (Some addr)]))
        else
          (true, mkDS18B20 (snd (ow_search false b)) d addrs pin dpin
                           (acts ++ [EvSearch false (Some addr)]))
    end.
Proof.
  cbn [searchDevices_while].
  rewrite bind_run, oneWire_search_run, fst_pair, snd_pair.
  cbn [oneWire].
  destruct (fst (ow_search false b)) as [addr|]; [|reflexivity].
  rewrite bind_run. unfold advance, get_devices, DS18B20_MAX_DEVICES.
  cbn [fst snd _devices _addresses _strongPullupPin _dataPin oneWire actions].
  destruct (d <? 16); [|reflexivity].
  rewrite !bind_run. unfold store_address, rom_crc_ok.
  cbn [fst snd _devices _addresses _strongPullupPin _dataPin oneWire actions].
  destruct (crc8 addr 7 =? nth 7 addr 0); reflexivity.
Qed.

(** The loop: what it leaves in the registry, given what it found there. *)
Lemma searchDevices_while_registry fuel : forall s : DS18B20_7semi B,
  length (_addresses s) = 16%nat -> 0 <= _devices s <= 16 ->
  fst (searchDevices_while fuel s) = true ->
  exists evs,
    actions (snd (searchDevices_while fuel s)) = actions s ++ evs /\
    registry (snd (searchDevices_while fuel s))
    = take 16 (registry s ++ List.filter rom_crc_ok (candidates evs)) /\
    length (_addresses (snd (searchDevices_while fuel s))) = 16%nat /\
    0 <= _devices (snd (searchDevices_while fuel s)) <= 16.
Proof.
  induction fuel as [|fuel IH]; intros s Hlen Hd Hended; [discriminate Hended|].
  destruct s as [b d addrs pin dpin acts].
  cbn [_devices _addresses actions] in Hlen, Hd |- *.
  rewrite searchDevices_while_step in Hended |- *.
  rewrite registry_mk.
  assert (Hfull : take 16 (take (Z.to_nat d) addrs) = take (Z.to_nat d) addrs).
  { apply firstn_all2. rewrite length_take. lia. }
  destruct (fst (ow_search false b)) as [addr|].
  - destruct (d <? 16) eqn:Hroom.
    + apply Z.ltb_lt in Hroom.
      assert (Hlen' : length (<[Z.to_nat d := addr]> addrs) = 16%nat)
        by (rewrite length_insert; exact Hlen).
      assert (Hd' : 0 <= (if rom_crc_ok addr then u8 (d + 1) else d) <= 16).
      { destruct (rom_crc_ok addr); [|exact Hd].
        rewrite u8_id by (unfold is_u8; lia). lia. }
      destruct (IH (mkDS18B20 (snd (ow_search false b))
                              (if rom_crc_ok addr then u8 (d + 1) else d)
                              (<[Z.to_nat d := addr]> addrs) pin dpin
                              (acts ++ [EvSearch false (Some addr)]))
                   Hlen' Hd' Hended) as [evs [Hacts [Hreg Hrest]]].
      exists (EvSearch false (Some addr) :: evs).
      rewrite Hacts, Hreg, registry_mk, candidates_found, filter_cons_if.
      cbn [actions].
      split; [rewrite <- app_assoc; reflexivity|].
      split; [|exact Hrest].
      destruct (rom_crc_ok addr).
      * rewrite take_accepted by (assumption || lia).
        rewrite <- app_assoc. reflexivity.
      * rewrite take_dropped. reflexivity.
    + apply Z.ltb_ge in Hroom.
      exists [EvSearch false (Some addr)]. rewrite snd_pair, registry_mk.
      cbn [actions _addresses _devices].
      split; [reflexivity|]. split; [|auto].
      symmetry. apply take_app_length'. rewrite length_take. lia.
  - exists [EvSearch false None]. rewrite snd_pair, registry_mk.
    cbn [actions _addresses _devices].
    split; [reflexivity|]. split; [|auto].
    cbn [candidates omap List.filter]. rewrite app_nil_r. symmetry. exact Hfull.
Qed.

(** The loop ends within [fuel] iterations when the bus search does. *)
Lemma searchDevices_while_ends fuel : forall s : DS18B20_7semi B,
  bus_search_ends fuel (oneWire s) = true ->
  fst (searchDevices_while fuel s) = true.
Proof.
  induction fuel as [|fuel IH]; intros s Hends; [discriminate Hends|].
  destruct s as [b d addrs pin dpin acts].
  cbn [bus_search_ends oneWire] in Hends.
  rewrite searchDevices_while_step.
  destruct (fst (ow_search false b)) as [addr|]; [|reflexivity].
  destruct (d <? 16); [|reflexivity].
  apply IH. exact Hends.
Qed.

Lemma candidates_app evs1 evs2 :
  candidates (evs1 ++ evs2) = candidates evs1 ++ candidates evs2.
Proof. unfold candidates. apply omap_app. Qed.


Lemma registry_advance b evs (s : DS18B20_7semi B) :
  registry (advance b evs s) = registry s.
Proof. reflexivity. Qed.



End Discovery.

(* ===================================================================== *)
(** * Part III: the claims                                                *)
(* ===================================================================== *)

(** C1.  A scratchpad read delivers the nine bytes clocked out of the bus and
    reports success exactly when CRC-8 over the first eight equals the ninth;
    a read that differs from a successful one by one inverted bit among the
    first eight bytes is rejected. *)
Theorem C1_readScratchpad_crc_iff {B : Type} `{OneWire B}
        (addr : ROM) (s : DS18B20_7semi B) :
  let ok := fst (result_of (readScratchpad addr) s) in
  let buffer := snd (result_of (readScratchpad addr) s) in
  buffer = scratch_bytes addr (oneWire s) /\
  length buffer = 9%nat /\
  (ok = true <-> crc8 buffer 8 = nth 8 buffer 0) /\
  (forall (s' : DS18B20_7semi B) (i : nat) (k : Z),
      (i < 8)%nat -> 0 <= k < 8 ->
      ok = true ->
      snd (result_of (readScratchpad addr) s') = flip_at i k buffer ->
      fst (result_of (readScratchpad addr) s') = false).
Proof.
  intros ok buffer. subst ok buffer.
  rewrite readScratchpad_run, !fst_pair, snd_pair.
  split; [reflexivity|]. split; [apply scratch_bytes_length|].
  split; [apply scratchpad_crc_ok_true|].
  intros s' i k Hi Hk Hok Hflip.
  rewrite readScratchpad_run, fst_pair in Hflip |- *.
  rewrite snd_pair in Hflip. rewrite fst_pair, Hflip.
  apply scratchpad_crc_ok_true in Hok. apply scratchpad_crc_ok_false.
  assert (Hlast : nth 8 (flip_at i k (scratch_bytes addr (oneWire s))) 0
                  = nth 8 (scratch_bytes addr (oneWire s)) 0).
  { unfold flip_at.
    rewrite !nth_lookup, list_lookup_insert_ne by lia. reflexivity. }
  rewrite Hlast, <- Hok.
  apply crc8_flip_at; [apply scratch_bytes_u8 | exact Hi | | exact Hk].
  rewrite scratch_bytes_length. lia.
Qed.

(** C1 on a scripted wire: bit 0 of the first byte inverted, the read is
    rejected. *)
Lemma C1_readScratchpad_crc_iff_witness :
  fst (result_of (readScratchpad Example.addr) Example.flipped_read) = false.
Proof.
  refine (proj2 (proj2 (proj2 (C1_readScratchpad_crc_iff
                                 Example.addr Example.clean_read)))
                Example.flipped_read 0%nat 0 _ _ _ _).
  - lia.
  - lia.
  - vm_compute. reflexivity.
  - vm_compute. reflexivity.
Defined.




(** C3.  When the scratchpad read after the conversion succeeds,
    [readTemperature] returns the [float] quotient of the raw register by
    16.0, where the raw register is the signed two's-complement value of
    scratchpad byte 1 (MSB) and byte 0 (LSB), and that quotient is exactly
    raw/16; register 0x0191 gives 25.0625 and register 0xFF5E gives -10.125. *)
Theorem C3_readTemperature_decodes_raw_over_16 {B : Type} `{OneWire B}
        (addr : ROM) (s : DS18B20_7semi B) :
  let read := result_of (readScratchpad addr)
                        (state_after (readTemperature_wait addr) s) in
  let scratch := snd read in
  let raw := twos_complement16 (nth 1 scratch 0) (nth 0 scratch 0) in
  let tempC := result_of (readTemperature addr) s in
  fst read = true ->
  tempC = Float32.div (Float32.of_int raw) Float32.sixteen /\
  (exists q, Float32.to_Q tempC = Some q /\ (q == raw # 16)%Q) /\
  (nth 1 scratch 0 = 1 -> nth 0 scratch 0 = 145 ->
   exists q, Float32.to_Q tempC = Some q /\ (q == 250625 # 10000)%Q) /\
  (nth 1 scratch 0 = 255 -> nth 0 scratch 0 = 94 ->
   exists q, Float32.to_Q tempC = Some q /\ (q == - (10125 # 1000))%Q).
Proof.
  cbv zeta. intros Hok.
  rewrite readTemperature_split, fst_pair, Hok.
  set (scratch := snd (fst (readScratchpad addr (snd (readTemperature_wait addr s))))).
  assert (Hbytes : Forall is_u8 scratch).
  { unfold scratch. rewrite readScratchpad_run, fst_pair, snd_pair.
    apply scratch_bytes_u8. }
  destruct (raw_of_exact scratch Hbytes) as [Hraw [q [Hq Hexact]]].
  rewrite <- Hraw.
  split; [reflexivity|].
  split; [exists q; split; assumption|].
  split; intros Hmsb Hlsb; rewrite Hraw, Hmsb, Hlsb in Hexact;
    exists q; (split; [exact Hq|]); rewrite Hexact; vm_compute; reflexivity.
Qed.

(** C3 on the simulated probes at 0x0191 and at 0xFF5E. *)
Lemma C3_readTemperature_decodes_raw_over_16_witness :
  (exists q, Float32.to_Q (result_of (readTemperature Example.addr)
                                     Example.parasite_probe) = Some q
             /\ (q == 250625 # 10000)%Q) /\
  (exists q, Float32.to_Q (result_of (readTemperature Example.addr)
                                     Example.cold_probe) = Some q
             /\ (q == - (10125 # 1000))%Q).
Proof.
  split.
  - refine (proj1 (proj2 (proj2 (C3_readTemperature_decodes_raw_over_16
                                   Example.addr Example.parasite_probe _))) _ _);
      vm_compute; reflexivity.
  - refine (proj2 (proj2 (proj2 (C3_readTemperature_decodes_raw_over_16
                                   Example.addr Example.cold_probe _))) _ _);
      vm_compute; reflexivity.
Defined.

(** C4.  On a device whose scratchpad reads succeed and whose scratchpad
    writes are echoed back faithfully, [setResolution(addr, R, false)]
    succeeds for every R in 9..12 and [getResolution(addr)] then returns R. *)
Theorem C4_setResolution_getResolution_roundtrip {B : Type} `{OneWire B}
        (addr : ROM) (pad : B -> list Z) (R : Z) (s : DS18B20_7semi B) :
  FaithfulScratchpad addr pad ->
  9 <= R <= 12 ->
  result_of (setResolution addr R false) s = true /\
  result_of (getResolution addr) (state_after (setResolution addr R false) s) = R.
Proof.
  intros device HR.
  destruct (faithful_read addr pad device s) as [b1 [evs1 [Hread Hpad1]]].
  assert (Hrun : exists b2 evs2,
             setResolution addr R false s = (true, advance b2 evs2 s) /\
             nth 4 (pad b2) 0
             = Z.lor (match R with 9 => 0 | 10 => 32 | 11 => 64 | 12 => 96 | _ => 0 end)
                     31).
  { assert (Hcfg : is_u8 (Z.lor (match R with
                                  | 9 => 0 | 10 => 32 | 11 => 64 | 12 => 96 | _ => 0
                                  end) 31)).
    { assert (HRs : R = 9 \/ R = 10 \/ R = 11 \/ R = 12) by lia.
      destruct HRs as [->|[->|[->| ->]]]; vm_compute; (split; [discriminate | reflexivity]). }
    destruct (faithful_write addr pad device
                (i8 (nth 2 (pad (oneWire s)) 0)) (i8 (nth 3 (pad (oneWire s)) 0))
                _ (advance b1 evs1 s) Hcfg)
      as [b2 [evs2 [Hwrite [_ [_ H4]]]]].
    exists b2, (evs1 ++ evs2). split; [|exact H4].
    unfold setResolution.
    assert (Hguard : (R <? 9) || (R >? 12) = false).
    { rewrite Z.gtb_ltb. apply orb_false_iff. split; apply Z.ltb_ge; lia. }
    rewrite Hguard.
    rewrite bind_run, Hread, fst_pair, snd_pair.
    cbv beta. rewrite fst_pair, snd_pair. cbn [negb].
    rewrite bind_run, Hwrite, fst_pair, snd_pair, advance_advance.
    reflexivity. }
  destruct Hrun as [b2 [evs2 [Hrun Hcfg]]].
  rewrite Hrun, fst_pair, snd_pair. split; [reflexivity|].
  apply (faithful_getResolution addr pad device (advance b2 evs2 s) _ R Hcfg).
  assert (HRs : R = 9 \/ R = 10 \/ R = 11 \/ R = 12) by lia.
  destruct HRs as [->|[->|[->| ->]]]; reflexivity.
Qed.

(** C4 on the simulated probe, for resolution 10. *)
Lemma C4_setResolution_getResolution_roundtrip_witness :
  result_of (setResolution Example.addr 10 false) Example.parasite_probe = true /\
  result_of (getResolution Example.addr)
            (state_after (setResolution Example.addr 10 false)
                         Example.parasite_probe) = 10.
Proof.
  apply (C4_setResolution_getResolution_roundtrip
           Example.addr Sim.scratchpad 10 Example.parasite_probe).
  - apply SimFacts.faithful.
  - lia.
Defined.

(** C5.  On such a device, [setAlarms(addr, TH, TL)] succeeds for all signed
    8-bit thresholds, -128 and 127 included, [getAlarms(addr)] then yields
    (TH, TL), and the configuration byte, hence the resolution, is what it was
    before. *)
Theorem C5_setAlarms_getAlarms_roundtrip {B : Type} `{OneWire B}
        (addr : ROM) (pad : B -> list Z) (th tl th0 tl0 : Z) (s : DS18B20_7semi B) :
  FaithfulScratchpad addr pad ->
  is_i8 th -> is_i8 tl ->
  let s' := state_after (setAlarms addr th tl false) s in
  result_of (setAlarms addr th tl false) s = true /\
  result_of (getAlarms addr th0 tl0) s' = (true, (th, tl)) /\
  nth 4 (pad (oneWire s')) 0 = nth 4 (pad (oneWire s)) 0 /\
  Z.land (nth 4 (pad (oneWire s')) 0) 96 = Z.land (nth 4 (pad (oneWire s)) 0) 96 /\
  result_of (getResolution addr) s' = result_of (getResolution addr) s.
Proof.
  intros device Hth Htl. cbv zeta.
  destruct (faithful_read addr pad device s) as [b1 [evs1 [Hread Hpad1]]].
  destruct (faithful_write addr pad device th tl (nth 4 (pad (oneWire s)) 0)
              (advance b1 evs1 s) (faithful_nth_u8 addr pad device _ 4))
    as [b2 [evs2 [Hwrite [H2 [H3 H4]]]]].
  assert (Hrun : setAlarms addr th tl false s = (true, advance b2 (evs1 ++ evs2) s)).
  { unfold setAlarms.
    rewrite bind_run, Hread, fst_pair, snd_pair.
    cbv beta. rewrite fst_pair, snd_pair. cbn [negb].
    rewrite bind_run, Hwrite, fst_pair, snd_pair, advance_advance.
    reflexivity. }
  rewrite Hrun, fst_pair, snd_pair, oneWire_advance.
  split; [reflexivity|].
  split.
  { rewrite getAlarms_run, fst_pair, oneWire_advance.
    rewrite (faithful_bytes addr pad device), (faithful_crc_ok addr pad device).
    rewrite H2, H3, (i8_u8 th Hth), (i8_u8 tl Htl). reflexivity. }
  split; [exact H4|].
  split; [rewrite H4; reflexivity|].
  rewrite !getResolution_run, !fst_pair, oneWire_advance.
  rewrite !(faithful_bytes addr pad device), !(faithful_crc_ok addr pad device), H4.
  reflexivity.
Qed.

(** C5 on the simulated probe, for the thresholds -128 and 127. *)
Lemma C5_setAlarms_getAlarms_roundtrip_witness :
  result_of (getAlarms Example.addr 0 0)
            (state_after (setAlarms Example.addr (-128) 127 false)
                         Example.parasite_probe) = (true, (-128, 127)).
Proof.
  refine (proj1 (proj2 (C5_setAlarms_getAlarms_roundtrip
                          Example.addr Sim.scratchpad (-128) 127 0 0
                          Example.parasite_probe _ _ _))).
  - apply SimFacts.faithful.
  - unfold is_i8. lia.
  - unfold is_i8. lia.
Defined.

(** C6.  The conversion delay is 94 ms for resolution 9, 188 ms for 10,
    375 ms for 11 and 750 ms for 12 and for every other value; the one wait
    of [readTemperature] comes before its scratchpad read and lasts the delay
    of the resolution [getResolution] reports, 750 ms when it reports 0. *)
Theorem C6_conversion_delay_selection {B : Type} `{OneWire B}
        (addr : ROM) (s : DS18B20_7semi B) :
  (_conversionDelayMs 9 = 94 /\ _conversionDelayMs 10 = 188 /\
   _conversionDelayMs 11 = 375 /\ _conversionDelayMs 12 = 750 /\
   (forall r, r <> 9 -> r <> 10 -> r <> 11 -> _conversionDelayMs r = 750)) /\
  let res := result_of (getResolution addr)
                       (state_after (readTemperature_convert addr) s) in
  let waiting := actions_during (readTemperature_wait addr) s in
  let reading := actions_during (readScratchpad addr)
                                (state_after (readTemperature_wait addr) s) in
  actions_during (readTemperature addr) s = waiting ++ reading /\
  delays reading = [] /\
  exists ms, delays waiting = [ms] /\
    (res = 9 -> ms = 94) /\ (res = 10 -> ms = 188) /\ (res = 11 -> ms = 375) /\
    (res = 12 \/ res = 0 -> ms = 750) /\
    In res [0; 9; 10; 11; 12].
Proof.
  split.
  { repeat split.
    intros r H9 H10 H11. unfold _conversionDelayMs.
    destruct r as [|p|p]; try reflexivity.
    do 4 (destruct p as [p|p|]; try reflexivity); congruence. }
  intros res waiting reading.
  split; [apply readTemperature_actions|].
  split; [apply readScratchpad_no_delay_no_pullup|].
  exists (_conversionDelayMs (if (res <? 9) || (res >? 12) then 12 else res)).
  split; [apply readTemperature_wait_delays|].
  pose proof (getResolution_values addr (state_after (readTemperature_convert addr) s))
    as Hres.
  fold res in Hres.
  repeat split; try exact Hres.
  - intros ->. reflexivity.
  - intros ->. reflexivity.
  - intros ->. reflexivity.
  - intros [-> | ->]; reflexivity.
Qed.

(** C6 for the unrecognized value 200 and on the simulated 12-bit probe. *)
Lemma C6_conversion_delay_selection_witness :
  _conversionDelayMs 200 = 750 /\
  exists ms, delays (actions_during (readTemperature_wait Example.addr)
                                    Example.parasite_probe) = [ms] /\ ms = 750.
Proof.
  pose proof (C6_conversion_delay_selection Example.addr Example.parasite_probe)
    as [[_ [_ [_ [_ Hother]]]] Hrun].
  split; [apply Hother; lia|].
  destruct Hrun as [_ [_ [ms [Hms [_ [_ [_ [H12 _]]]]]]]].
  exists ms. split; [exact Hms|].
  apply H12. left. vm_compute. reflexivity.
Defined.

(** C7, as the spec states it, fails with nothing on the wire and a pull-up
    pin configured: every read is 0xFF, the scratchpad read fails its CRC
    check, the power-supply query reads parasite power, and the pull-up pin is
    driven high before NaN is returned. *)
Lemma C7_counterexample_pullup_asserted :
  ~ (fst (result_of (readScratchpad Example.addr)
                    (state_after (readTemperature_wait Example.addr)
                                 Example.empty_wire)) = false ->
     result_of (readTemperature Example.addr) Example.empty_wire = Float32.NAN /\
     asserts_pullup (actions_during (readTemperature Example.addr)
                                    Example.empty_wire) = false).
Proof.
  intros Hclaim.
  assert (Hfails : fst (result_of (readScratchpad Example.addr)
                          (state_after (readTemperature_wait Example.addr)
                                       Example.empty_wire)) = false)
    by (vm_compute; reflexivity).
  destruct (Hclaim Hfails) as [_ Hnever].
  vm_compute in Hnever. discriminate Hnever.
Qed.

(** C7, amended.  When the scratchpad read after the conversion fails its CRC
    check, [readTemperature] returns NaN; during that call the strong pull-up
    pin is driven high exactly when the power-supply query read a byte other
    than 1 and a pull-up pin is configured. *)
Theorem C7_crc_failure_returns_NaN {B : Type} `{OneWire B}
        (addr : ROM) (s : DS18B20_7semi B) :
  let s2 := state_after (getResolution addr)
                        (state_after (readTemperature_convert addr) s) in
  let s3 := state_after (readTemperature_wait addr) s in
  fst (result_of (readScratchpad addr) s3) = false ->
  result_of (readTemperature addr) s = Float32.NAN /\
  asserts_pullup (actions_during (readTemperature addr) s)
  = negb (power_byte addr (oneWire s2) =? 1) && (0 <=? _strongPullupPin s).
Proof.
  cbv zeta. intros Hfail. split.
  - rewrite readTemperature_split, fst_pair, Hfail. reflexivity.
  - rewrite readTemperature_actions, asserts_pullup_app.
    rewrite (proj2 (readScratchpad_no_delay_no_pullup addr _)), orb_false_r.
    apply readTemperature_wait_pullup.
Qed.

(** C7, amended, with nothing on the wire. *)
Lemma C7_crc_failure_returns_NaN_witness :
  result_of (readTemperature Example.addr) Example.empty_wire = Float32.NAN /\
  asserts_pullup (actions_during (readTemperature Example.addr) Example.empty_wire)
  = true.
Proof.
  destruct (C7_crc_failure_returns_NaN Example.addr Example.empty_wire)
    as [Hnan Hpullup].
  - vm_compute. reflexivity.
  - split; [exact Hnan|]. rewrite Hpullup. vm_compute. reflexivity.
Defined.

(** C8, on the code.  For a parasite-powered device with a pull-up pin
    configured, [copyScratchpad] issues the power-supply query (reset, select,
    0xB4, read) after the EEPROM-copy command 0x48 and before the pull-up pin
    is driven high: bus transactions lie between the command and the release
    of the pull-up. *)
Theorem C8_copyScratchpad_queries_power_inside_window {B : Type} `{OneWire B}
        (addr : ROM) (s : DS18B20_7semi B) :
  let b1 := ow_write 72 false (ow_select addr (snd (ow_reset (oneWire s)))) in
  let v := power_byte addr b1 in
  let pin := _strongPullupPin s in
  v <> 1 -> 0 <= pin ->
  actions_during (copyScratchpad addr) s
  = [EvReset; EvSelect addr; EvWrite 72 false;
     EvReset; EvSelect addr; EvWrite 180 false; EvRead v;
     EvPinModeOutput pin; EvDigitalWrite pin true;
     EvDelay 11;
     EvPinModeOutput pin; EvDigitalWrite pin false] /\
  exists inside,
    between_command_and_pin_low 72 pin (actions_during (copyScratchpad addr) s)
    = Some inside /\
    existsb is_bus_transaction inside = true.
Proof.
  intros b1 v pin Hv Hpin.
  assert (Hevs : actions_during (copyScratchpad addr) s
                 = [EvReset; EvSelect addr; EvWrite 72 false;
                    EvReset; EvSelect addr; EvWrite 180 false; EvRead v;
                    EvPinModeOutput pin; EvDigitalWrite pin true;
                    EvDelay 11;
                    EvPinModeOutput pin; EvDigitalWrite pin false]).
  { rewrite (actions_during_advance _ _ _ _ _ (copyScratchpad_run addr s)).
    fold b1. fold v. fold pin.
    apply Z.eqb_neq in Hv. apply Z.leb_le in Hpin. rewrite Hv, Hpin.
    reflexivity. }
  split; [exact Hevs|].
  rewrite Hevs.
  exists [EvReset; EvSelect addr; EvWrite 180 false; EvRead v;
          EvPinModeOutput pin; EvDigitalWrite pin true;
          EvDelay 11; EvPinModeOutput pin].
  split; [|reflexivity].
  cbn [between_command_and_pin_low until_pin_low]. cbn [Z.eqb Pos.eqb].
  rewrite Z.eqb_refl. reflexivity.
Qed.

(** C8 on the simulated parasite-powered probe with the pull-up on pin 5. *)
Lemma C8_copyScratchpad_queries_power_inside_window_witness :
  between_command_and_pin_low
    72 5 (actions_during (copyScratchpad Example.addr) Example.parasite_probe)
  = Some [EvReset; EvSelect Example.addr; EvWrite 180 false; EvRead 0;
          EvPinModeOutput 5; EvDigitalWrite 5 true; EvDelay 11; EvPinModeOutput 5].
Proof.
  destruct (C8_copyScratchpad_queries_power_inside_window
              Example.addr Example.parasite_probe) as [Hevs _].
  - vm_compute. discriminate.
  - vm_compute. discriminate.
  - rewrite Hevs. vm_compute. reflexivity.
Defined.

(** C9.  A resolution outside 9..12 makes [setResolution] fail at once: the
    object, the bus and the sequence of hardware actions are as before. *)
Theorem C9_setResolution_rejects_out_of_range {B : Type} `{OneWire B}
        (addr : ROM) (resolution : Z) (persist : bool) (s : DS18B20_7semi B) :
  resolution < 9 \/ resolution > 12 ->
  setResolution addr resolution persist s = (false, s) /\
  actions_during (setResolution addr resolution persist) s = [].
Proof.
  intros Hout.
  assert (Hguard : (resolution <? 9) || (resolution >? 12) = true).
  { apply orb_true_iff. destruct Hout; [left; apply Z.ltb_lt | right; apply Z.gtb_gt]; lia. }
  assert (Hrun : setResolution addr resolution persist s = (false, s)).
  { unfold setResolution. rewrite Hguard. reflexivity. }
  split; [exact Hrun|].
  unfold actions_during. rewrite Hrun, snd_pair.
  apply drop_all.
Qed.

(** C9 for resolution 13. *)
Lemma C9_setResolution_rejects_out_of_range_witness :
  setResolution Example.addr 13 true Example.parasite_probe
  = (false, Example.parasite_probe) /\
  actions_during (setResolution Example.addr 13 true) Example.parasite_probe = [].
Proof.
  apply (C9_setResolution_rejects_out_of_range
           Example.addr 13 true Example.parasite_probe).
  right. lia.
Defined.

(** C10.  [readPowerSupply] always returns true and reports external power
    exactly when the byte read is 1, so a byte 0xFF is reported as parasite
    power; [isParasitePower] is therefore the negation of that report, the
    flag the power check of [readTemperature] tests is always true, and that
    check drives the pull-up exactly when the byte is not 1 and a pin is
    configured. *)
Theorem C10_readPowerSupply_always_succeeds {B : Type} `{OneWire B}
        (addr : ROM) (externalPowered : bool) (s : DS18B20_7semi B) :
  let v := power_byte addr (oneWire s) in
  let s2 := state_after (getResolution addr)
                        (state_after (readTemperature_convert addr) s) in
  result_of (readPowerSupply addr externalPowered) s = (true, v =? 1) /\
  (v = 255 -> snd (result_of (readPowerSupply addr externalPowered) s) = false) /\
  result_of (isParasitePower addr) s = negb (v =? 1) /\
  fst (result_of (readPowerSupply addr true) s2) = true /\
  asserts_pullup (actions_during (readTemperature_wait addr) s)
  = negb (power_byte addr (oneWire s2) =? 1) && (0 <=? _strongPullupPin s).
Proof.
  intros v s2. subst v s2.
  split; [rewrite readPowerSupply_run; reflexivity|].
  split.
  { intros Hff. rewrite readPowerSupply_run, fst_pair, snd_pair, Hff. reflexivity. }
  split.
  { unfold isParasitePower. rewrite bind_run, readPowerSupply_run.
    reflexivity. }
  split; [rewrite readPowerSupply_run; reflexivity|].
  apply readTemperature_wait_pullup.
Qed.

(** C10 with nothing on the wire: the byte read is 0xFF. *)
Lemma C10_readPowerSupply_always_succeeds_witness :
  snd (result_of (readPowerSupply Example.addr true) Example.empty_wire) = false.
Proof.
  refine (proj1 (proj2 (C10_readPowerSupply_always_succeeds
                          Example.addr true Example.empty_wire)) _).
  vm_compute. reflexivity.
Defined.

(* ===================================================================== *)
(** * Part IV: further properties of the driver                           *)
(* ===================================================================== *)

(** ** Packing a ROM address *)

Module PackFacts.

Lemma land_shift_byte v b : is_u8 b -> Z.land (Z.shiftl v 8) b = 0.
Proof.
  unfold is_u8. intros Hb. apply Z.bits_inj'. intros n Hn.
  rewrite Z.land_spec, Z.bits_0.
  destruct (Z.lt_ge_cases n 8) as [Hlow|Hhigh].
  - rewrite Z.shiftl_spec_low by exact Hlow. reflexivity.
  - assert (Hbit : Z.testbit b n = false).
    { destruct (Z.eq_dec b 0) as [->|Hnz]; [apply Z.bits_0|].
      apply Z.bits_above_log2; [lia|].
      apply Z.lt_le_trans with 8; [|exact Hhigh].
      apply Z.log2_lt_pow2; lia. }
    rewrite Hbit. apply andb_false_r.
Qed.

Lemma lor_shift_byte v b : is_u8 b -> Z.lor (Z.shiftl v 8) b = v * 256 + b.
Proof.
  intros Hb.
  rewrite <- Z.lxor_lor, <- Z.add_nocarry_lxor by (apply land_shift_byte, Hb).
  rewrite Z.shiftl_mul_pow2 by lia. reflexivity.
Qed.

Lemma le_value_range (l : list Z) :
  Forall is_u8 l -> 0 <= le_value l < 256 ^ Z.of_nat (length l).
Proof.
  induction 1 as [|b l Hb _ IH]; [cbn; lia|].
  cbn [le_value fold_right length]. fold (le_value l).
  rewrite Nat2Z.inj_succ, Z.pow_succ_r by lia.
  unfold is_u8 in Hb. lia.
Qed.

(** The loop of [getROM64], over the bytes in the order it visits them. *)
Lemma pack_rev (l : list Z) :
  Forall is_u8 l -> (length l <= 8)%nat ->
  fold_left (fun v b => u64 (Z.lor (Z.shiftl v 8) b)) (rev l) 0 = le_value l.
Proof.
  induction 1 as [|b l Hb Hl IH]; intros Hlen; [reflexivity|].
  cbn [length] in Hlen. cbn [rev]. rewrite fold_left_app. cbn [fold_left].
  rewrite IH by lia. rewrite (lor_shift_byte _ b Hb).
  cbn [le_value fold_right]. fold (le_value l).
  pose proof (le_value_range l Hl) as Hr.
  assert (Hpow : 256 ^ Z.of_nat (length l) <= 256 ^ 7)
    by (apply Z.pow_le_mono_r; lia).
  unfold u64. rewrite Z.mod_small; [lia|].
  unfold is_u8 in Hb. change (2 ^ 64) with (256 * 256 ^ 7). lia.
Qed.

Lemma le_value_byte (l : list Z) : forall i,
  Forall is_u8 l -> nth i l 0 = (le_value l / 256 ^ Z.of_nat i) mod 256.
Proof.
  induction l as [|b l IH]; intros i Hl.
  - destruct i; reflexivity.
  - inversion Hl as [|? ? Hb Hl']; subst.
    cbn [le_value fold_right]. fold (le_value l).
    unfold is_u8 in Hb.
    assert (Hdiv : (b + 256 * le_value l) / 256 = le_value l).
    { rewrite Z.mul_comm, Z.div_add by lia. rewrite Z.div_small by lia. lia. }
    destruct i as [|i].
    + cbn [nth]. change (256 ^ Z.of_nat 0) with 1. rewrite Z.div_1_r.
      rewrite Z.mul_comm, Z.mod_add by lia. symmetry. apply Z.mod_small. lia.
    + cbn [nth]. rewrite (IH i Hl').
      rewrite Nat2Z.inj_succ, Z.pow_succ_r by lia.
      rewrite <- Z.div_div by (try lia; apply Z.pow_pos_nonneg; lia).
      rewrite Hdiv. reflexivity.
Qed.

Lemma fold_left_nth {A} (f : A -> Z -> A) (addr : ROM) (idx : list nat) : forall a,
  fold_left (fun v i => f v (nth i addr 0)) idx a
  = fold_left f (map (fun i => nth i addr 0) idx) a.
Proof. induction idx as [|i idx IH]; intros a; [reflexivity | apply IH]. Qed.

Lemma visited_bytes (addr : ROM) :
  length addr = 8%nat ->
  map (fun i => nth i addr 0) [7; 6; 5; 4; 3; 2; 1; 0]%nat = rev addr.
Proof.
  intros Hlen.
  do 8 (destruct addr as [|? addr]; [discriminate Hlen|]).
  destruct addr; [reflexivity | discriminate Hlen].
Qed.

Lemma getROM64_pack (addr : ROM) :
  length addr = 8%nat ->
  getROM64 addr = fold_left (fun v b => u64 (Z.lor (Z.shiftl v 8) b)) (rev addr) 0.
Proof.
  intros Hlen. unfold getROM64.
  rewrite (fold_left_nth (fun v b => u64 (Z.lor (Z.shiftl v 8) b))).
  rewrite (visited_bytes addr Hlen). reflexivity.
Qed.

End PackFacts.

(** X1.  [getROM64] packs an 8-byte address least significant byte first:
    the result is below 2^64, byte [i] of the address is byte [i] of the
    result, and two 8-byte addresses with the same result are equal. *)
Theorem X1_getROM64_little_endian (addr : ROM) :
  length addr = 8%nat -> Forall is_u8 addr ->
  getROM64 addr = le_value addr /\
  0 <= getROM64 addr < 2 ^ 64 /\
  (forall i, nth i addr 0 = (getROM64 addr / 256 ^ Z.of_nat i) mod 256) /\
  (forall addr' : ROM,
      length addr' = 8%nat -> Forall is_u8 addr' ->
      getROM64 addr' = getROM64 addr -> addr' = addr).
Proof.
  intros Hlen Hbytes.
  assert (Hpack : forall a : ROM, length a = 8%nat -> Forall is_u8 a ->
                                  getROM64 a = le_value a).
  { intros a Ha Hb. rewrite (PackFacts.getROM64_pack a Ha).
    apply PackFacts.pack_rev; [exact Hb | lia]. }
  rewrite (Hpack addr Hlen Hbytes).
  split; [reflexivity|].
  split.
  { pose proof (PackFacts.le_value_range addr Hbytes) as Hr.
    rewrite Hlen in Hr. change (256 ^ Z.of_nat 8) with (2 ^ 64) in Hr. exact Hr. }
  split; [intros i; apply PackFacts.le_value_byte, Hbytes|].
  intros addr' Hlen' Hbytes' Heq.
  rewrite (Hpack addr' Hlen' Hbytes') in Heq.
  apply (nth_ext _ _ 0 0); [congruence|].
  intros i _.
  rewrite (PackFacts.le_value_byte addr' i Hbytes'),
          (PackFacts.le_value_byte addr i Hbytes), Heq.
  reflexivity.
Qed.

(** X1 on the ROM code of the simulated probe. *)
Lemma X1_getROM64_little_endian_witness :
  getROM64 Example.addr = le_value Example.addr.
Proof.
  refine (proj1 (X1_getROM64_little_endian Example.addr _ _)).
  - reflexivity.
  - assert (Hrom : Example.addr = [40; 0; 0; 0; 0; 0; 0; 30])
      by (vm_compute; reflexivity).
    rewrite Hrom.
    repeat (apply Forall_cons; split; [unfold is_u8; lia|]).
    apply Forall_nil_2.
Defined.

(** ** What the calls emit *)

Create HintDb emits.

Section Emits.

Context {B : Type} `{OneWire B}.
Variable Q : Event -> bool.

Lemma only_ret {A} (a : A) : only Q (ret (B:=B) a).
Proof.
  intros s. exists (oneWire s), []. split; [|reflexivity].
  unfold ret. rewrite snd_pair, advance_nil. reflexivity.
Qed.

Lemma only_bind {A C} (m : M B A) (k : A -> M B C) :
  only Q m -> (forall a, only Q (k a)) -> only Q (bind m k).
Proof.
  intros Hm Hk s. rewrite bind_run.
  destruct (Hm s) as [b1 [evs1 [Hs1 HQ1]]]. rewrite Hs1.
  destruct (Hk (fst (m s)) (advance b1 evs1 s)) as [b2 [evs2 [Hs2 HQ2]]].
  exists b2, (evs1 ++ evs2). rewrite Hs2, advance_advance.
  split; [reflexivity|]. rewrite forallb_app, HQ1, HQ2. reflexivity.
Qed.

Lemma only_if {A} (c : bool) (m1 m2 : M B A) :
  only Q m1 -> only Q m2 -> only Q (if c then m1 else m2).
Proof. destruct c; auto. Qed.

Lemma only_when (c : bool) (m : M B unit) : only Q m -> only Q (when c m).
Proof. intros Hm. unfold when. apply only_if; [exact Hm | apply only_ret]. Qed.

Lemma only_event {A} (f : DS18B20_7semi B -> A) (g : DS18B20_7semi B -> B)
      (e : DS18B20_7semi B -> Event) :
  (forall s, Q (e s) = true) ->
  only Q (fun s => (f s, with_bus (g s) (e s) s)).
Proof.
  intros He s. exists (g s), [e s]. rewrite snd_pair.
  split; [reflexivity|]. cbn [forallb]. rewrite He. reflexivity.
Qed.

Lemma only_get_strongPullupPin : only Q (get_strongPullupPin (B:=B)).
Proof.
  intros s. exists (oneWire s), []. split; [|reflexivity].
  rewrite get_strongPullupPin_run, snd_pair, advance_nil. reflexivity.
Qed.

End Emits.

Section EmitsWire.

Context {B : Type} `{OneWire B}.
Variable Q : Event -> bool.
Hypothesis wire : forall e, is_wire_traffic e = true -> Q e = true.

Lemma only_reset : only Q oneWire_reset.
Proof. apply (only_event Q _ _ (fun _ => EvReset)). intros _. apply wire. reflexivity. Qed.

Lemma only_select addr : only Q (oneWire_select addr).
Proof.
  apply (only_event Q _ _ (fun _ => EvSelect addr)). intros _. apply wire. reflexivity.
Qed.

Lemma only_write v pw : only Q (oneWire_write v pw).
Proof.
  apply (only_event Q _ _ (fun _ => EvWrite v pw)). intros _. apply wire. reflexivity.
Qed.

Lemma only_read : only Q oneWire_read.
Proof.
  apply (only_event Q _ _ (fun s => EvRead (u8 (fst (ow_read (oneWire s)))))).
  intros s. apply wire. reflexivity.
Qed.

Lemma only_read_buffer n : only Q (read_buffer n).
Proof.
  induction n as [|n IH]; cbn [read_buffer]; [apply only_ret|].
  apply only_bind; [apply only_read|]. intros v.
  apply only_bind; [exact IH|]. intros rest. apply only_ret.
Qed.

#[local] Hint Resolve only_ret only_bind only_if only_when only_reset only_select only_write
     only_read only_read_buffer only_get_strongPullupPin : emits.

Lemma only_readScratchpad addr : only Q (readScratchpad addr).
Proof. unfold readScratchpad. auto 12 with emits. Qed.
#[local] Hint Resolve only_readScratchpad : emits.

Lemma only_writeScratchpad addr th tl config :
  only Q (writeScratchpad addr th tl config).
Proof. unfold writeScratchpad. auto 20 with emits. Qed.

Lemma only_readPowerSupply addr e : only Q (readPowerSupply addr e).
Proof. unfold readPowerSupply. auto 12 with emits. Qed.
#[local] Hint Resolve only_writeScratchpad only_readPowerSupply : emits.

Lemma only_isParasitePower addr : only Q (isParasitePower addr).
Proof. unfold isParasitePower. auto 12 with emits. Qed.

Lemma only_recallE2 addr : only Q (recallE2 addr).
Proof. unfold recallE2. auto 12 with emits. Qed.

Lemma only_getAlarms addr th tl : only Q (getAlarms addr th tl).
Proof. unfold getAlarms. auto 12 with emits. Qed.

Lemma only_getResolution addr : only Q (getResolution addr).
Proof. unfold getResolution. auto 20 with emits. Qed.

Lemma only_readRawTemperature addr raw : only Q (readRawTemperature addr raw).
Proof. unfold readRawTemperature. auto 12 with emits. Qed.

Lemma only_setAlarms_volatile addr th tl : only Q (setAlarms addr th tl false).
Proof. unfold setAlarms. auto 20 with emits. Qed.

Lemma only_setResolution_volatile addr r : only Q (setResolution addr r false).
Proof. unfold setResolution. auto 20 with emits. Qed.

End EmitsWire.

Section EmitsDevice.

Context {B : Type} `{OneWire B}.
Variable Q : Event -> bool.
Hypothesis device : forall e, not_search e = true -> Q e = true.

Lemma device_wire e : is_wire_traffic e = true -> Q e = true.
Proof. intros He. apply device. destruct e; try reflexivity; discriminate He. Qed.

Lemma only_delay ms : only Q (delay (B:=B) ms).
Proof.
  apply (only_event Q _ _ (fun _ => EvDelay ms)). intros _. apply device. reflexivity.
Qed.

Lemma only_pinMode pin : only Q (pinMode_OUTPUT (B:=B) pin).
Proof.
  apply (only_event Q _ _ (fun _ => EvPinModeOutput pin)). intros _.
  apply device. reflexivity.
Qed.

Lemma only_digitalWrite pin high : only Q (digitalWrite (B:=B) pin high).
Proof.
  apply (only_event Q _ _ (fun _ => EvDigitalWrite pin high)). intros _.
  apply device. reflexivity.
Qed.

#[local] Hint Resolve only_ret only_bind only_if only_when only_reset only_select
  only_write only_read only_get_strongPullupPin only_readScratchpad
  only_writeScratchpad only_readPowerSupply only_getResolution
  only_delay only_pinMode only_digitalWrite device_wire : emits.

Lemma only_strongPullup on : only Q (_strongPullup (B:=B) on).
Proof. unfold _strongPullup. auto 12 with emits. Qed.
#[local] Hint Resolve only_strongPullup : emits.

Lemma only_copyScratchpad addr : only Q (copyScratchpad addr).
Proof. unfold copyScratchpad. auto 20 with emits. Qed.
#[local] Hint Resolve only_copyScratchpad : emits.

Lemma only_setAlarms addr th tl persist : only Q (setAlarms addr th tl persist).
Proof. unfold setAlarms. auto 20 with emits. Qed.

Lemma only_setResolution addr r persist : only Q (setResolution addr r persist).
Proof. unfold setResolution. auto 20 with emits. Qed.

Lemma only_readTemperature addr : only Q (readTemperature addr).
Proof. unfold readTemperature. auto 30 with emits. Qed.

End EmitsDevice.

Section EmitsSearch.

Context {B : Type} `{OneWire B}.

Lemma only_reset_search : only is_search (oneWire_reset_search (B:=B)).
Proof. apply (only_event is_search _ _ (fun _ => EvResetSearch)). reflexivity. Qed.

Lemma only_search alarm : only is_search (oneWire_search (B:=B) alarm).
Proof.
  apply (only_event is_search _ _
           (fun s => EvSearch alarm (fst (ow_search alarm (oneWire s))))).
  reflexivity.
Qed.

Lemma only_alarmSearch foundAddr : only is_search (alarmSearch (B:=B) foundAddr).
Proof.
  unfold alarmSearch.
  apply only_bind; [apply only_reset_search|]. intros _.
  apply only_bind; [apply only_search|]. intros [addr1|]; [|apply only_ret].
  apply only_bind; [apply only_reset_search|]. intros _.
  apply only_bind; [apply only_search|]. intros [addr2|]; [|apply only_ret].
  apply only_if; apply only_ret.
Qed.

End EmitsSearch.

(** ** Reading traces, continued *)

Lemma pin_writes_app evs1 evs2 :
  pin_writes (evs1 ++ evs2) = pin_writes evs1 ++ pin_writes evs2.
Proof. unfold pin_writes. apply omap_app. Qed.

Lemma pin_writes_reads l : pin_writes (map EvRead l) = [].
Proof. induction l as [|v l IH]; [reflexivity | exact IH]. Qed.

Lemma touches_pins_app evs1 evs2 :
  touches_pins (evs1 ++ evs2) = touches_pins evs1 || touches_pins evs2.
Proof. unfold touches_pins. apply existsb_app. Qed.

Lemma touches_pins_reads l : touches_pins (map EvRead l) = false.
Proof. induction l as [|v l IH]; [reflexivity | exact IH]. Qed.

Lemma bytes_written_app evs1 evs2 :
  bytes_written (evs1 ++ evs2) = bytes_written evs1 ++ bytes_written evs2.
Proof. unfold bytes_written. apply omap_app. Qed.

Lemma bytes_written_reads l : bytes_written (map EvRead l) = [].
Proof. induction l as [|v l IH]; [reflexivity | exact IH]. Qed.

Section Emitted.

Context {B : Type} `{OneWire B}.

Lemma only_actions (Q : Event -> bool) {A} (m : M B A) s :
  only Q m -> forallb Q (actions_during m s) = true.
Proof.
  intros Hm. destruct (Hm s) as [b [evs [Hs HQ]]].
  unfold actions_during. rewrite Hs, actions_advance, drop_app_length. exact HQ.
Qed.

Lemma only_object (Q : Event -> bool) {A} (m : M B A) s :
  only Q m ->
  registry (state_after m s) = registry s /\
  _devices (state_after m s) = _devices s /\
  _addresses (state_after m s) = _addresses s /\
  _strongPullupPin (state_after m s) = _strongPullupPin s /\
  _dataPin (state_after m s) = _dataPin s /\
  actions (state_after m s) = actions s ++ actions_during m s /\
  forallb Q (actions_during m s) = true.
Proof.
  intros Hm. pose proof (only_actions Q m s Hm) as HQ.
  destruct (Hm s) as [b [evs [Hs _]]].
  unfold actions_during in *. rewrite Hs in *.
  rewrite actions_advance, drop_app_length in *.
  repeat split; try reflexivity. exact HQ.
Qed.

End Emitted.

(** ** Properties of the device operations *)

(** X2.  No operation on a device changes the registry, the device count,
    the stored addresses or either pin number (strong pull-up pin and data
    pin), and none issues a bus search or resets the search: each only adds
    hardware actions to those already performed. *)
Theorem X2_device_operations_keep_the_registry {B : Type} `{OneWire B}
        (addr : ROM) (th tl config resolution raw : Z) (persist external : bool)
        (s : DS18B20_7semi B) :
  Forall (fun s' : DS18B20_7semi B =>
            registry s' = registry s /\
            _devices s' = _devices s /\
            _addresses s' = _addresses s /\
            _strongPullupPin s' = _strongPullupPin s /\
            _dataPin s' = _dataPin s /\
            exists evs, actions s' = actions s ++ evs /\
                        forallb not_search evs = true)
         [state_after (readTemperature addr) s;
          state_after (readRawTemperature addr raw) s;
          state_after (setResolution addr resolution persist) s;
          state_after (getResolution addr) s;
          state_after (setAlarms addr th tl persist) s;
          state_after (getAlarms addr th tl) s;
          state_after (isParasitePower addr) s;
          state_after (readScratchpad addr) s;
          state_after (writeScratchpad addr th tl config) s;
          state_after (copyScratchpad addr) s;
          state_after (recallE2 addr) s;
          state_after (readPowerSupply addr external) s].
Proof.
  assert (Hwire : forall e, is_wire_traffic e = true -> not_search e = true)
    by (intros e He; destruct e; try reflexivity; discriminate He).
  assert (Hkeep : forall A (m : M B A),
             only not_search m ->
             registry (state_after m s) = registry s /\
             _devices (state_after m s) = _devices s /\
             _addresses (state_after m s) = _addresses s /\
             _strongPullupPin (state_after m s) = _strongPullupPin s /\
             _dataPin (state_after m s) = _dataPin s /\
             exists evs, actions (state_after m s) = actions s ++ evs /\
                         forallb not_search evs = true).
  { intros A m Hm.
    destruct (only_object not_search m s Hm) as [Hr [Hd [Ha [Hp [Hdp [Hacts HQ]]]]]].
    repeat split; try assumption. eexists. split; eassumption. }
  repeat (apply Forall_cons; split); try apply Forall_nil_2; apply Hkeep.
  - apply only_readTemperature. auto.
  - apply only_readRawTemperature, Hwire.
  - apply only_setResolution. auto.
  - apply only_getResolution, Hwire.
  - apply only_setAlarms. auto.
  - apply only_getAlarms, Hwire.
  - apply only_isParasitePower, Hwire.
  - apply only_readScratchpad, Hwire.
  - apply only_writeScratchpad, Hwire.
  - apply only_copyScratchpad. auto.
  - apply only_recallE2, Hwire.
  - apply only_readPowerSupply, Hwire.
Qed.

(** X3.  The getters, the scratchpad read and write, the EEPROM recall, the
    power-supply query and the setters called without persistence only talk
    to the selected device: they never wait, never drive a pin and never
    search the bus. *)
Theorem X3_volatile_operations_only_talk_to_the_device {B : Type} `{OneWire B}
        (addr : ROM) (th tl config resolution raw : Z) (external : bool)
        (s : DS18B20_7semi B) :
  Forall (fun evs => forallb is_wire_traffic evs = true /\
                     delays evs = [] /\ touches_pins evs = false)
         [actions_during (readRawTemperature addr raw) s;
          actions_during (setResolution addr resolution false) s;
          actions_during (getResolution addr) s;
          actions_during (setAlarms addr th tl false) s;
          actions_during (getAlarms addr th tl) s;
          actions_during (isParasitePower addr) s;
          actions_during (readScratchpad addr) s;
          actions_during (writeScratchpad addr th tl config) s;
          actions_during (recallE2 addr) s;
          actions_during (readPowerSupply addr external) s].
Proof.
  assert (Hquiet : forall evs, forallb is_wire_traffic evs = true ->
                               delays evs = [] /\ touches_pins evs = false).
  { induction evs as [|e evs IH]; [split; reflexivity|].
    cbn [forallb]. intros Hall. apply andb_true_iff in Hall.
    destruct Hall as [He Hall]. destruct (IH Hall) as [Hd Hp].
    destruct e; try discriminate He; split; assumption. }
  assert (Hall : forall A (m : M B A),
             only is_wire_traffic m ->
             forallb is_wire_traffic (actions_during m s) = true /\
             delays (actions_during m s) = [] /\
             touches_pins (actions_during m s) = false).
  { intros A m Hm. pose proof (only_actions _ m s Hm) as HQ.
    split; [exact HQ | apply Hquiet, HQ]. }
  repeat (apply Forall_cons; split); try apply Forall_nil_2; apply Hall.
  - apply only_readRawTemperature. auto.
  - apply only_setResolution_volatile. auto.
  - apply only_getResolution. auto.
  - apply only_setAlarms_volatile. auto.
  - apply only_getAlarms. auto.
  - apply only_isParasitePower. auto.
  - apply only_readScratchpad. auto.
  - apply only_writeScratchpad. auto.
  - apply only_recallE2. auto.
  - apply only_readPowerSupply. auto.
Qed.

Section MoreRuns.

Context {B : Type} `{OneWire B}.

Lemma readRawTemperature_run addr raw (s : DS18B20_7semi B) :
  readRawTemperature addr raw s
  = ((if scratchpad_crc_ok (scratch_bytes addr (oneWire s))
      then (true, raw_of (scratch_bytes addr (oneWire s)))
      else (false, raw)),
     snd (readScratchpad addr s)).
Proof.
  unfold readRawTemperature. rewrite bind_run.
  assert (Hflag : fst (fst (readScratchpad addr s))
                  = scratchpad_crc_ok (scratch_bytes addr (oneWire s)))
    by (rewrite readScratchpad_run; reflexivity).
  assert (Hbuf : snd (fst (readScratchpad addr s)) = scratch_bytes addr (oneWire s))
    by (rewrite readScratchpad_run; reflexivity).
  cbv beta. rewrite Hflag, Hbuf.
  destruct (scratchpad_crc_ok _); reflexivity.
Qed.

Lemma setAlarms_run addr th tl persist (s : DS18B20_7semi B) :
  setAlarms addr th tl persist s
  = if scratchpad_crc_ok (scratch_bytes addr (oneWire s))
    then if fst (writeScratchpad addr th tl (nth 4 (scratch_bytes addr (oneWire s)) 0)
                                 (snd (readScratchpad addr s)))
         then if persist
              then copyScratchpad addr
                     (snd (writeScratchpad addr th tl
                             (nth 4 (scratch_bytes addr (oneWire s)) 0)
                             (snd (readScratchpad addr s))))
              else (true,
                    snd (writeScratchpad addr th tl
                           (nth 4 (scratch_bytes addr (oneWire s)) 0)
                           (snd (readScratchpad addr s))))
         else (false,
               snd (writeScratchpad addr th tl
                      (nth 4 (scratch_bytes addr (oneWire s)) 0)
                      (snd (readScratchpad addr s))))
    else (false, snd (readScratchpad addr s)).
Proof.
  unfold setAlarms. rewrite bind_run.
  assert (Hflag : fst (fst (readScratchpad addr s))
                  = scratchpad_crc_ok (scratch_bytes addr (oneWire s)))
    by (rewrite readScratchpad_run; reflexivity).
  assert (Hbuf : snd (fst (readScratchpad addr s)) = scratch_bytes addr (oneWire s))
    by (rewrite readScratchpad_run; reflexivity).
  cbv beta. rewrite Hflag, Hbuf.
  destruct (scratchpad_crc_ok _); [|reflexivity].
  cbn [negb]. rewrite bind_run. cbv beta.
  destruct (fst (writeScratchpad _ _ _ _ _)); [|reflexivity].
  cbn [negb]. destruct persist; reflexivity.
Qed.

Lemma setResolution_run addr resolution persist (s : DS18B20_7semi B) :
  9 <= resolution <= 12 ->
  let sp := scratch_bytes addr (oneWire s) in
  let config := Z.lor (match resolution with
                       | 9 => 0 | 10 => 32 | 11 => 64 | 12 => 96 | _ => 0
                       end) 31 in
  let w := writeScratchpad addr (i8 (nth 2 sp 0)) (i8 (nth 3 sp 0)) config
                           (snd (readScratchpad addr s)) in
  setResolution addr resolution persist s
  = if scratchpad_crc_ok sp
    then if fst w
         then if persist then (true, snd (copyScratchpad addr (snd w)))
              else (true, snd w)
         else (false, snd w)
    else (false, snd (readScratchpad addr s)).
Proof.
  intros Hr sp config w.
  assert (Hguard : (resolution <? 9) || (resolution >? 12) = false).
  { rewrite Z.gtb_ltb. apply orb_false_iff. split; apply Z.ltb_ge; lia. }
  unfold setResolution. rewrite Hguard, bind_run.
  assert (Hflag : fst (fst (readScratchpad addr s)) = scratchpad_crc_ok sp)
    by (rewrite readScratchpad_run; reflexivity).
  assert (Hbuf : snd (fst (readScratchpad addr s)) = sp)
    by (rewrite readScratchpad_run; reflexivity).
  cbv beta. rewrite Hflag, Hbuf. cbv zeta.
  destruct (scratchpad_crc_ok sp); [|reflexivity].
  cbn [negb]. rewrite bind_run. cbv beta. fold config. fold w.
  destruct (fst w); [|reflexivity].
  cbn [negb]. destruct persist; [|reflexivity].
  rewrite bind_run. cbv beta.
  assert (Hcopy : fst (copyScratchpad addr (snd w)) = true)
    by (rewrite copyScratchpad_run; reflexivity).
  rewrite Hcopy. reflexivity.
Qed.

End MoreRuns.

(** X4.  [copyScratchpad] and [readTemperature] write to a pin either not at
    all or exactly twice, high then low on the strong pull-up pin: the pull-up
    is never left asserted; with no pin configured they touch no pin. *)
Theorem X4_pullup_is_released {B : Type} `{OneWire B}
        (addr : ROM) (s : DS18B20_7semi B) :
  let pin := _strongPullupPin s in
  let copying := actions_during (copyScratchpad addr) s in
  let converting := actions_during (readTemperature addr) s in
  (pin_writes copying = [] \/ pin_writes copying = [(pin, true); (pin, false)]) /\
  (pin_writes converting = []
   \/ pin_writes converting = [(pin, true); (pin, false)]) /\
  (pin < 0 -> touches_pins copying = false /\ touches_pins converting = false).
Proof.
  cbv zeta.
  rewrite readTemperature_actions.
  rewrite (actions_during_advance _ _ _ _ _ (copyScratchpad_run addr s)).
  rewrite (actions_during_advance _ _ _ _ _ (readTemperature_wait_run addr s)).
  rewrite (actions_during_advance _ _ _ _ _ (readScratchpad_run addr _)).
  rewrite !pin_writes_app, !touches_pins_app, !pin_writes_reads, !touches_pins_reads.
  split; [|split].
  - destruct (negb _ && (0 <=? _strongPullupPin s)); [right | left]; reflexivity.
  - destruct (negb _ && (0 <=? _strongPullupPin s)); [right | left]; reflexivity.
  - intros Hpin.
    assert (Hno : (0 <=? _strongPullupPin s) = false) by (apply Z.leb_gt; exact Hpin).
    rewrite Hno, !andb_false_r. split; reflexivity.
Qed.

(** X4 on the probe driven without a pull-up pin. *)
Lemma X4_pullup_is_released_witness :
  touches_pins (actions_during (copyScratchpad Example.addr) Example.cold_probe)
  = false /\
  touches_pins (actions_during (readTemperature Example.addr) Example.cold_probe)
  = false.
Proof.
  apply (proj2 (proj2 (X4_pullup_is_released Example.addr Example.cold_probe))).
  vm_compute. reflexivity.
Defined.

(** X5.  [readRawTemperature] returns the CRC verdict of its scratchpad read;
    on failure the caller's [raw] keeps its value, on success it becomes the
    two's-complement value of bytes 1 and 0, between -32768 and 32767. *)
Theorem X5_readRawTemperature_result {B : Type} `{OneWire B}
        (addr : ROM) (raw : Z) (s : DS18B20_7semi B) :
  let sp := scratch_bytes addr (oneWire s) in
  let ok := fst (result_of (readRawTemperature addr raw) s) in
  let raw' := snd (result_of (readRawTemperature addr raw) s) in
  ok = scratchpad_crc_ok sp /\
  (ok = false -> raw' = raw) /\
  (ok = true -> raw' = twos_complement16 (nth 1 sp 0) (nth 0 sp 0)
                /\ -32768 <= raw' < 32768).
Proof.
  cbv zeta. rewrite readRawTemperature_run, fst_pair.
  pose proof (raw_of_exact _ (scratch_bytes_u8 addr (oneWire s))) as [Hraw _].
  destruct (scratchpad_crc_ok _); rewrite ?fst_pair, ?snd_pair.
  - split; [reflexivity|]. split; [discriminate|]. intros _.
    split; [exact Hraw|]. unfold raw_of, i16.
    pose proof (Z.mod_pos_bound
                  (Z.lor (Z.shiftl (nth 1 (scratch_bytes addr (oneWire s)) 0) 8)
                         (nth 0 (scratch_bytes addr (oneWire s)) 0) + 32768)
                  65536 eq_refl).
    lia.
  - split; [reflexivity|]. split; [reflexivity | discriminate].
Qed.

(** X5 on the simulated probe at register 0x0191. *)
Lemma X5_readRawTemperature_result_witness :
  snd (result_of (readRawTemperature Example.addr 0) Example.parasite_probe) = 401.
Proof.
  destruct (proj2 (proj2 (X5_readRawTemperature_result
                            Example.addr 0 Example.parasite_probe)))
    as [Hraw _].
  - vm_compute. reflexivity.
  - rewrite Hraw. vm_compute. reflexivity.
Defined.

(** X6.  [writeScratchpad] sends 0x4E, the two thresholds as bytes and the
    configuration byte, then reads the scratchpad back; it returns true
    exactly when that read passes its CRC check and bytes 2, 3 and 4 of it
    are the three bytes sent. *)
Theorem X6_writeScratchpad_verifies_the_echo {B : Type} `{OneWire B}
        (addr : ROM) (th tl config : Z) (s : DS18B20_7semi B) :
  let back := scratch_bytes addr
                (bus_write_scratchpad addr (u8 th) (u8 tl) config (oneWire s)) in
  bytes_written (actions_during (writeScratchpad addr th tl config) s)
  = [78; u8 th; u8 tl; config; 190] /\
  (result_of (writeScratchpad addr th tl config) s = true <->
   crc8 back 8 = nth 8 back 0 /\
   nth 2 back 0 = u8 th /\ nth 3 back 0 = u8 tl /\ nth 4 back 0 = u8 config).
Proof.
  cbv zeta.
  rewrite (actions_during_advance _ _ _ _ _ (writeScratchpad_run addr th tl config s)).
  rewrite writeScratchpad_run, fst_pair.
  split.
  - rewrite !bytes_written_app, bytes_written_reads. reflexivity.
  - rewrite !andb_true_iff, !Z.eqb_eq, scratchpad_crc_ok_true. tauto.
Qed.

(** X7.  When the scratchpad read that opens [setResolution] (resolution in
    9..12) or [setAlarms] fails its CRC check, the call returns false and the
    only byte it has written to the bus is the Read Scratchpad command:
    nothing is written to the device. *)
Theorem X7_setters_abort_on_unreadable_scratchpad {B : Type} `{OneWire B}
        (addr : ROM) (th tl resolution : Z) (persist : bool) (s : DS18B20_7semi B) :
  scratchpad_crc_ok (scratch_bytes addr (oneWire s)) = false ->
  9 <= resolution <= 12 ->
  result_of (setResolution addr resolution persist) s = false /\
  bytes_written (actions_during (setResolution addr resolution persist) s) = [190] /\
  result_of (setAlarms addr th tl persist) s = false /\
  bytes_written (actions_during (setAlarms addr th tl persist) s) = [190].
Proof.
  intros Hbad Hr.
  assert (Hread : bytes_written
                    ([EvReset; EvSelect addr; EvWrite 190 false]
                       ++ map EvRead (scratch_bytes addr (oneWire s))) = [190])
    by (rewrite bytes_written_app, bytes_written_reads; reflexivity).
  assert (Hres : setResolution addr resolution persist s
                 = (false, snd (readScratchpad addr s)))
    by (rewrite (setResolution_run addr resolution persist s Hr), Hbad; reflexivity).
  assert (Hal : setAlarms addr th tl persist s = (false, snd (readScratchpad addr s)))
    by (rewrite setAlarms_run, Hbad; reflexivity).
  rewrite readScratchpad_run, snd_pair in Hres, Hal.
  rewrite (actions_during_advance _ _ _ _ _ Hres).
  rewrite (actions_during_advance _ _ _ _ _ Hal).
  rewrite Hres, Hal, !fst_pair. auto.
Qed.

(** X7 with nothing on the wire. *)
Lemma X7_setters_abort_on_unreadable_scratchpad_witness :
  result_of (setResolution Example.addr 10 true) Example.empty_wire = false /\
  bytes_written (actions_during (setResolution Example.addr 10 true)
                                Example.empty_wire) = [190].
Proof.
  destruct (X7_setters_abort_on_unreadable_scratchpad
              Example.addr 0 0 10 true Example.empty_wire) as [Hres [Hbytes _]].
  - vm_compute. reflexivity.
  - lia.
  - split; [exact Hres | exact Hbytes].
Defined.

(** X8.  [copyScratchpad] returns true whatever the bus does, so asking a
    setter to persist never changes its result: [setAlarms] and
    [setResolution] return with persistence what they return without. *)
Theorem X8_persisting_never_fails {B : Type} `{OneWire B}
        (addr : ROM) (th tl resolution : Z) (s : DS18B20_7semi B) :
  result_of (copyScratchpad addr) s = true /\
  result_of (setAlarms addr th tl true) s = result_of (setAlarms addr th tl false) s /\
  result_of (setResolution addr resolution true) s
  = result_of (setResolution addr resolution false) s.
Proof.
  split; [rewrite copyScratchpad_run; reflexivity|].
  split.
  - rewrite !setAlarms_run.
    destruct (scratchpad_crc_ok _); [|reflexivity].
    destruct (fst (writeScratchpad _ _ _ _ _)); [|reflexivity].
    rewrite copyScratchpad_run. reflexivity.
  - destruct ((resolution <? 9) || (resolution >? 12)) eqn:Hguard.
    + unfold setResolution. rewrite Hguard. reflexivity.
    + apply orb_false_iff in Hguard. destruct Hguard as [Hlo Hhi].
      rewrite Z.gtb_ltb in Hhi. apply Z.ltb_ge in Hlo, Hhi.
      rewrite !setResolution_run by lia.
      destruct (scratchpad_crc_ok _); [|reflexivity].
      destruct (fst (writeScratchpad _ _ _ _ _)); reflexivity.
Qed.

(** X9.  [getResolution] returns 0 exactly when its scratchpad read fails the
    CRC check; otherwise it returns 9 plus the two bits 6:5 of the
    configuration byte, whatever the other bits are. *)
Theorem X9_getResolution_reads_bits_6_5 {B : Type} `{OneWire B}
        (addr : ROM) (s : DS18B20_7semi B) :
  let sp := scratch_bytes addr (oneWire s) in
  (result_of (getResolution addr) s = 0 <-> scratchpad_crc_ok sp = false) /\
  (scratchpad_crc_ok sp = true ->
   result_of (getResolution addr) s = 9 + Z.land (Z.shiftr (nth 4 sp 0) 5) 3).
Proof.
  cbv zeta. rewrite getResolution_run, fst_pair.
  assert (Hbits : forall cfg, is_u8 cfg ->
             (let r := Z.land cfg 96 in
              if r =? 0 then 9 else if r =? 32 then 10 else if r =? 64 then 11 else 12)
             = 9 + Z.land (Z.shiftr cfg 5) 3).
  { intros cfg Hcfg. apply Z.eqb_eq.
    apply (u8_forall
             (fun cfg =>
                (let r := Z.land cfg 96 in
                 if r =? 0 then 9 else if r =? 32 then 10
                 else if r =? 64 then 11 else 12)
                =? 9 + Z.land (Z.shiftr cfg 5) 3));
      [vm_compute; reflexivity | exact Hcfg]. }
  pose proof (Hbits _ (nth_is_u8 _ 4 (scratch_bytes_u8 addr (oneWire s)))) as Hcfg.
  destruct (scratchpad_crc_ok _).
  - rewrite Hcfg.
    assert (Hrange : 0 <= Z.land (Z.shiftr (nth 4 (scratch_bytes addr (oneWire s)) 0) 5) 3)
      by (apply Z.land_nonneg; right; lia).
    split; [split; [lia | discriminate] | reflexivity].
  - split; [split; reflexivity | discriminate].
Qed.

(** X9 on the simulated 12-bit probe. *)
Lemma X9_getResolution_reads_bits_6_5_witness :
  result_of (getResolution Example.addr) Example.parasite_probe = 12.
Proof.
  rewrite (proj2 (X9_getResolution_reads_bits_6_5 Example.addr Example.parasite_probe));
    vm_compute; reflexivity.
Defined.

(** X10.  [getAlarms] returns the CRC verdict of its scratchpad read; on
    failure the caller's [th] and [tl] keep their values, on success they are
    bytes 2 and 3 read as signed bytes, between -128 and 127. *)
Theorem X10_getAlarms_result {B : Type} `{OneWire B}
        (addr : ROM) (th tl : Z) (s : DS18B20_7semi B) :
  let sp := scratch_bytes addr (oneWire s) in
  let r := result_of (getAlarms addr th tl) s in
  fst r = scratchpad_crc_ok sp /\
  (fst r = false -> snd r = (th, tl)) /\
  (fst r = true ->
   is_i8 (fst (snd r)) /\ is_i8 (snd (snd r)) /\
   u8 (fst (snd r)) = nth 2 sp 0 /\ u8 (snd (snd r)) = nth 3 sp 0).
Proof.
  cbv zeta. rewrite getAlarms_run, fst_pair.
  assert (Hi8 : forall z, is_i8 (i8 z)).
  { intros z. unfold is_i8, i8.
    pose proof (Z.mod_pos_bound (z + 128) 256 eq_refl). lia. }
  destruct (scratchpad_crc_ok _); rewrite ?fst_pair, ?snd_pair.
  - split; [reflexivity|]. split; [discriminate|]. intros _.
    repeat split; try apply Hi8;
      apply u8_i8, nth_is_u8, scratch_bytes_u8.
  - split; [reflexivity|]. split; [reflexivity | discriminate].
Qed.

(** X10 on the simulated probe with thresholds 75 and 70. *)
Lemma X10_getAlarms_result_witness :
  u8 (fst (snd (result_of (getAlarms Example.addr 0 0) Example.parasite_probe))) = 75.
Proof.
  destruct (proj2 (proj2 (X10_getAlarms_result
                            Example.addr 0 0 Example.parasite_probe)))
    as [_ [_ [Hth _]]].
  - vm_compute. reflexivity.
  - rewrite Hth. vm_compute. reflexivity.
Defined.

(** ** Discovery through [begin], and the registry read back *)

Section Registry.

Context {B : Type} `{OneWire B}.

Lemma begin_run fuel (b : B) d addrs pin dpin acts :
  let s0 := mkDS18B20 (ow_reset_search (ow_reset_search b)) 0 addrs pin dpin
                      ((acts ++ [EvResetSearch]) ++ [EvResetSearch]) in
  begin fuel (mkDS18B20 b d addrs pin dpin acts)
  = if fst (searchDevices_while fuel s0)
    then (Some (0 <? _devices (snd (searchDevices_while fuel s0))),
          advance (ow_reset_search (oneWire (snd (searchDevices_while fuel s0))))
                  [EvResetSearch] (snd (searchDevices_while fuel s0)))
    else (None, snd (searchDevices_while fuel s0)).
Proof.
  intros s0.
  cbv [begin searchDevices bind oneWire_reset_search set_devices get_devices ret
       with_bus advance].
  cbn [fst snd oneWire _devices _addresses _strongPullupPin _dataPin actions].
  fold s0.
  destruct (fst (searchDevices_while fuel s0)); reflexivity.
Qed.

(** What a completed [begin] leaves behind. *)
Lemma begin_registry fuel (s : DS18B20_7semi B) ok :
  length (_addresses s) = 16%nat ->
  fst (begin fuel s) = Some ok ->
  registry (snd (begin fuel s))
  = take 16 (List.filter rom_crc_ok (candidates (actions_during (begin fuel) s))) /\
  length (_addresses (snd (begin fuel s))) = 16%nat /\
  0 <= _devices (snd (begin fuel s)) <= 16 /\
  ok = (0 <? _devices (snd (begin fuel s))).
Proof.
  intros Hlen Hok.
  destruct s as [b d addrs pin dpin acts]. cbn [_addresses] in Hlen.
  unfold actions_during. rewrite begin_run in Hok |- *. cbn [actions].
  set (s0 := mkDS18B20 (ow_reset_search (ow_reset_search b)) 0 addrs pin dpin
                       ((acts ++ [EvResetSearch]) ++ [EvResetSearch])) in *.
  destruct (fst (searchDevices_while fuel s0)) eqn:Hended;
    rewrite fst_pair in Hok; [|discriminate Hok].
  rewrite snd_pair.
  destruct (searchDevices_while_registry fuel s0 Hlen ltac:(cbn; lia) Hended)
    as [evs [Hacts [Hreg [Hlen' Hd']]]].
  assert (Hs0 : actions s0 = (acts ++ [EvResetSearch]) ++ [EvResetSearch])
    by reflexivity.
  assert (Hr0 : registry s0 = []) by reflexivity.
  rewrite registry_advance, actions_advance, Hacts, Hreg, Hs0, Hr0.
  rewrite <- !app_assoc, drop_app_length, !candidates_app.
  cbn [candidates omap]. rewrite app_nil_r.
  split; [reflexivity|]. split; [exact Hlen'|]. split; [exact Hd'|].
  inversion Hok. reflexivity.
Qed.

Lemma getAddress_run index addr (s : DS18B20_7semi B) :
  getAddress index addr s
  = (if _devices s <=? index then (false, addr)
     else (true, nth (Z.to_nat index) (_addresses s) []), s).
Proof.
  unfold getAddress, bind, get_devices, ret. cbn [fst snd].
  destruct (_devices s <=? index); reflexivity.
Qed.

Lemma registry_lookup (s : DS18B20_7semi B) index :
  length (_addresses s) = 16%nat -> 0 <= index < _devices s -> _devices s <= 16 ->
  registry s !! Z.to_nat index = Some (nth (Z.to_nat index) (_addresses s) []).
Proof.
  intros Hlen Hi Hd. unfold registry.
  rewrite lookup_take_lt by lia.
  destruct (lookup_lt_is_Some_2 (_addresses s) (Z.to_nat index)) as [a Ha]; [lia|].
  rewrite Ha. f_equal. symmetry. apply nth_lookup_Some with (d := []) in Ha. exact Ha.
Qed.

Lemma filter_all_ok (l : list ROM) : Forall (fun a => rom_crc_ok a = true) (List.filter rom_crc_ok l).
Proof.
  apply List.Forall_forall. intros a Ha. apply filter_In in Ha. tauto.
Qed.

Lemma filter_nonempty (l : list ROM) :
  (0 < length (take 16 (List.filter rom_crc_ok l)))%nat <->
  exists a, In a l /\ rom_crc_ok a = true.
Proof.
  split.
  - intros Hpos. destruct (List.filter rom_crc_ok l) as [|a rest] eqn:Hf.
    + cbn in Hpos. lia.
    + exists a. apply filter_In. rewrite Hf. left. reflexivity.
  - intros [a Ha]. apply filter_In in Ha.
    destruct (List.filter rom_crc_ok l) as [|a' rest]; [destruct Ha|].
    cbn. lia.
Qed.

End Registry.

(** X11.  [begin] returns once the bus search ends; it leaves in the registry
    the first 16 CRC-valid candidates of its search, sets the device count to
    their number, and returns true exactly when the search delivered at least
    one candidate with a valid CRC. *)
Theorem X11_begin_reports_a_valid_device {B : Type} `{OneWire B}
        (fuel : nat) (s : DS18B20_7semi B) :
  length (_addresses s) = 16%nat ->
  let found := candidates (actions_during (begin fuel) s) in
  let s' := state_after (begin fuel) s in
  (bus_search_ends fuel (ow_reset_search (ow_reset_search (oneWire s))) = true ->
   result_of (begin fuel) s <> None) /\
  (forall ok, result_of (begin fuel) s = Some ok ->
     registry s' = take 16 (List.filter rom_crc_ok found) /\
     _devices s' = Z.of_nat (length (registry s')) /\
     (ok = true <-> exists addr, In addr found /\ rom_crc_ok addr = true)).
Proof.
  intros Hlen. cbv zeta. split.
  - intros Hends. destruct s as [b d addrs pin dpin acts]. cbn [oneWire] in Hends.
    rewrite begin_run.
    rewrite (searchDevices_while_ends fuel
               (mkDS18B20 (ow_reset_search (ow_reset_search b)) 0 addrs pin dpin
                          ((acts ++ [EvResetSearch]) ++ [EvResetSearch])) Hends),
            fst_pair.
    discriminate.
  - intros ok Hok.
    destruct (begin_registry fuel s ok Hlen Hok) as [Hreg [Hlen' [Hd' Hflag]]].
    pose proof (registry_length _ Hlen' Hd') as Hcount.
    split; [exact Hreg|]. split; [symmetry; exact Hcount|].
    rewrite <- filter_nonempty, <- Hreg, Hflag, Z.ltb_lt. lia.
Qed.

(** X11 on the simulated probe. *)
Lemma X11_begin_reports_a_valid_device_witness :
  _devices (state_after (begin 5) Example.parasite_probe) = 1.
Proof.
  destruct (proj2 (X11_begin_reports_a_valid_device 5 Example.parasite_probe eq_refl)
                  true) as [_ [Hcount _]].
  - vm_compute. reflexivity.
  - rewrite Hcount. vm_compute. reflexivity.
Defined.

(** X12.  After [begin], [getAddress] changes nothing in the object; it
    succeeds exactly for the indexes below the device count, hands out the
    registry entry at that index, whose CRC is valid, and on failure leaves
    the caller's buffer as it was. *)
Theorem X12_getAddress_after_begin {B : Type} `{OneWire B}
        (fuel : nat) (s : DS18B20_7semi B) (ok : bool) (index : Z) (addr : ROM) :
  length (_addresses s) = 16%nat ->
  result_of (begin fuel) s = Some ok ->
  0 <= index ->
  let s' := state_after (begin fuel) s in
  let r := result_of (getAddress index addr) s' in
  state_after (getAddress index addr) s' = s' /\
  (fst r = true <-> index < Z.of_nat (length (registry s'))) /\
  (fst r = false -> snd r = addr) /\
  (fst r = true ->
   registry s' !! Z.to_nat index = Some (snd r) /\ rom_crc_ok (snd r) = true).
Proof.
  intros Hlen Hok Hindex. cbv zeta.
  destruct (begin_registry fuel s ok Hlen Hok) as [Hreg [Hlen' [Hd' _]]].
  pose proof (registry_length _ Hlen' Hd') as Hcount.
  rewrite getAddress_run, fst_pair, snd_pair, Hcount.
  split; [reflexivity|].
  destruct (_devices (snd (begin fuel s)) <=? index) eqn:Hcmp;
    rewrite ?fst_pair, ?snd_pair.
  - apply Z.leb_le in Hcmp.
    split; [split; [discriminate | lia]|].
    split; [reflexivity | discriminate].
  - apply Z.leb_gt in Hcmp.
    split; [split; [intros _; exact Hcmp | reflexivity]|].
    split; [discriminate|]. intros _.
    pose proof (registry_lookup _ index Hlen' (conj Hindex Hcmp) (proj2 Hd')) as Hat.
    split; [exact Hat|].
    rewrite Hreg in Hat.
    pose proof (filter_all_ok (candidates (actions_during (begin fuel) s))) as Hall.
    apply (Forall_take _ 16%nat) in Hall.
    exact (proj1 (Forall_lookup _ _) Hall _ _ Hat).
Qed.

(** X12 on the simulated probe: index 0 is its ROM code, index 1 fails. *)
Lemma X12_getAddress_after_begin_witness :
  registry (state_after (begin 5) Example.parasite_probe) !! 0%nat
  = Some (snd (result_of (getAddress 0 []) (state_after (begin 5) Example.parasite_probe))).
Proof.
  destruct (X12_getAddress_after_begin 5 Example.parasite_probe true 0 [] eq_refl)
    as [_ [_ [_ Hgot]]].
  - vm_compute. reflexivity.
  - lia.
  - destruct Hgot as [Hat _]; [vm_compute; reflexivity | exact Hat].
Defined.

(** X13.  [alarmSearch] issues search resets and searches only and changes
    nothing else in the object.  It returns true exactly when the plain
    search and then the alarm search each deliver an address and the second
    one has a valid CRC, and hands out that address; when the plain search
    finds no device, no alarm search is run and the caller's buffer keeps its
    value. *)
Theorem X13_alarmSearch_result {B : Type} `{OneWire B}
        (foundAddr : ROM) (s : DS18B20_7semi B) :
  let r := result_of (alarmSearch foundAddr) s in
  let evs := actions_during (alarmSearch foundAddr) s in
  let plain := ow_search false (ow_reset_search (oneWire s)) in
  let alarm := ow_search true (ow_reset_search (snd plain)) in
  forallb is_search evs = true /\
  registry (state_after (alarmSearch foundAddr) s) = registry s /\
  (fst r = true <->
   fst plain <> None /\ exists a, fst alarm = Some a /\ rom_crc_ok a = true) /\
  (fst r = true -> fst alarm = Some (snd r)) /\
  (fst plain = None ->
   r = (false, foundAddr) /\ evs = [EvResetSearch; EvSearch false None]).
Proof.
  cbv zeta.
  destruct (only_object is_search (alarmSearch foundAddr) s (only_alarmSearch foundAddr))
    as [Hreg [_ [_ [_ [_ [_ Hevs]]]]]].
  split; [exact Hevs|]. split; [exact Hreg|].
  clear Hreg Hevs.
  destruct s as [b d addrs pin dpin acts].
  unfold actions_during.
  cbv [alarmSearch bind oneWire_reset_search oneWire_search ret with_bus advance].
  cbn [fst snd oneWire _devices _addresses _strongPullupPin _dataPin actions].
  destruct (fst (ow_search false (ow_reset_search b))) as [addr1|].
  - cbn [fst snd oneWire actions].
    destruct (fst (ow_search true (ow_reset_search (snd (ow_search false (ow_reset_search b))))))
      as [addr2|].
    + unfold rom_crc_ok.
      destruct (crc8 addr2 7 =? nth 7 addr2 0) eqn:Hcrc; cbn [negb fst snd].
      * split; [split; [intros _; split; [discriminate | exists addr2; auto] | reflexivity]|].
        split; [reflexivity | discriminate].
      * split; [split; [discriminate|]|].
        { intros [_ [a [Ha Hok]]]. inversion Ha; subst a. congruence. }
        split; discriminate.
    + cbn [fst snd].
      split; [split; [discriminate | intros [_ [a [Ha _]]]; discriminate Ha]|].
      split; discriminate.
  - cbn [fst snd actions].
    split; [split; [discriminate | intros [Hne _]; destruct Hne; reflexivity]|].
    split; [discriminate|]. intros _. split; [reflexivity|].
    rewrite <- !app_assoc, drop_app_length. reflexivity.
Qed.

(** X13 on the wire with one device in alarm, and on the empty wire. *)
Lemma X13_alarmSearch_result_witness :
  fst (ow_search true (ow_reset_search
                         (snd (ow_search false
                                 (ow_reset_search (oneWire Example.alarm_wire))))))
  = Some (snd (result_of (alarmSearch []) Example.alarm_wire)) /\
  result_of (alarmSearch [1; 2]) Example.empty_wire = (false, [1; 2]).
Proof.
  split.
  - apply (proj1 (proj2 (proj2 (proj2
             (X13_alarmSearch_result [] Example.alarm_wire))))).
    vm_compute. reflexivity.
  - apply (proj2 (proj2 (proj2 (proj2
             (X13_alarmSearch_result [1; 2] Example.empty_wire))))).
    reflexivity.
Defined.

(** ** The command bytes on the wire *)

Section Commands.

Context {B : Type} `{OneWire B}.

Lemma actions_during_state {A} (m : M B A) s b evs :
  state_after m s = advance b evs s -> actions_during m s = evs.
Proof.
  intros Hs. unfold actions_during. rewrite Hs, actions_advance.
  apply drop_app_length.
Qed.

Lemma recallE2_run addr (s : DS18B20_7semi B) :
  let b1 := ow_write 184 false (ow_select addr (snd (ow_reset (oneWire s)))) in
  recallE2 addr s =
    (scratchpad_crc_ok (scratch_bytes addr b1),
     advance (snd (bus_read_scratchpad addr b1))
             ([EvReset; EvSelect addr; EvWrite 184 false]
                ++ [EvReset; EvSelect addr; EvWrite 190 false]
                ++ map EvRead (scratch_bytes addr b1)) s).
Proof.
  intros b1.
  cbv [recallE2 bind oneWire_reset oneWire_select oneWire_write with_bus].
  cbn [fst snd]. rewrite readScratchpad_run. cbn [fst snd oneWire advance].
  rewrite !advance_advance. fold b1. unfold ret.
  destruct (scratchpad_crc_ok (scratch_bytes addr b1)); reflexivity.
Qed.

Lemma bytes_written_pullup (c : bool) pin high :
  bytes_written (if c then pullup pin high else []) = [].
Proof. destruct c; reflexivity. Qed.

(** A scratchpad write that follows a scratchpad read. *)
Lemma write_after_read addr th tl config (s : DS18B20_7semi B) :
  exists ok b evs,
    writeScratchpad addr th tl config (snd (readScratchpad addr s))
    = (ok, advance b evs s) /\
    bytes_written evs = [190; 78; u8 th; u8 tl; config; 190].
Proof.
  rewrite readScratchpad_run, snd_pair, writeScratchpad_run, advance_advance.
  eexists. eexists. eexists. split; [reflexivity|].
  rewrite !bytes_written_app, !bytes_written_reads. reflexivity.
Qed.

(** A copy to EEPROM that follows other actions. *)
Lemma copy_after addr b evs (s : DS18B20_7semi B) :
  exists b' evs',
    copyScratchpad addr (advance b evs s) = (true, advance b' (evs ++ evs') s) /\
    bytes_written evs' = [72; 180].
Proof.
  rewrite copyScratchpad_run, advance_advance.
  eexists. eexists. split; [reflexivity|].
  rewrite !bytes_written_app, !bytes_written_pullup. reflexivity.
Qed.

(** The configuration byte of a resolution in 9..12, with bits 4:0 set. *)
Lemma config_byte resolution :
  9 <= resolution <= 12 ->
  Z.lor (match resolution with 9 => 0 | 10 => 32 | 11 => 64 | 12 => 96 | _ => 0 end) 31
  = 32 * (resolution - 9) + 31.
Proof.
  intros Hr.
  assert (Hcases : resolution = 9 \/ resolution = 10 \/ resolution = 11
                   \/ resolution = 12) by lia.
  destruct Hcases as [-> | [-> | [-> | ->]]]; reflexivity.
Qed.

End Commands.

(** X14.  Whatever the device answers, [readTemperature] writes the same four
    command bytes (Convert T, Read Scratchpad, Read Power Supply, Read
    Scratchpad), [copyScratchpad] writes Copy Scratchpad and Read Power
    Supply, and [recallE2] writes Recall E2 and Read Scratchpad and returns
    the CRC verdict of that read. *)
Theorem X14_fixed_command_sequences {B : Type} `{OneWire B}
        (addr : ROM) (s : DS18B20_7semi B) :
  bytes_written (actions_during (readTemperature addr) s) = [68; 190; 180; 190] /\
  bytes_written (actions_during (copyScratchpad addr) s) = [72; 180] /\
  bytes_written (actions_during (recallE2 addr) s) = [184; 190] /\
  result_of (recallE2 addr) s
  = scratchpad_crc_ok
      (scratch_bytes addr
         (ow_write 184 false (ow_select addr (snd (ow_reset (oneWire s)))))).
Proof.
  rewrite readTemperature_actions.
  rewrite (actions_during_advance _ _ _ _ _ (copyScratchpad_run addr s)).
  rewrite (actions_during_advance _ _ _ _ _ (readTemperature_wait_run addr s)).
  rewrite (actions_during_advance _ _ _ _ _ (readScratchpad_run addr _)).
  rewrite (actions_during_advance _ _ _ _ _ (recallE2_run addr s)).
  rewrite recallE2_run, fst_pair.
  rewrite !bytes_written_app, !bytes_written_reads, !bytes_written_pullup.
  repeat split; reflexivity.
Qed.

(** X15.  When its opening scratchpad read passes the CRC check, [setAlarms]
    writes back the configuration byte it has read and [setResolution]
    (resolution in 9..12) writes back the two threshold bytes it has read,
    with the configuration byte 32 * (resolution - 9) + 31; the copy to
    EEPROM is commanded exactly when persistence is asked for and the
    write was verified. *)
Theorem X15_setters_write_back_what_they_read {B : Type} `{OneWire B}
        (addr : ROM) (th tl resolution : Z) (persist : bool) (s : DS18B20_7semi B) :
  let sp := scratch_bytes addr (oneWire s) in
  scratchpad_crc_ok sp = true ->
  9 <= resolution <= 12 ->
  bytes_written (actions_during (setAlarms addr th tl persist) s)
  = [190; 78; u8 th; u8 tl; nth 4 sp 0; 190]
      ++ (if persist && result_of (setAlarms addr th tl persist) s
          then [72; 180] else []) /\
  bytes_written (actions_during (setResolution addr resolution persist) s)
  = [190; 78; nth 2 sp 0; nth 3 sp 0; 32 * (resolution - 9) + 31; 190]
      ++ (if persist && result_of (setResolution addr resolution persist) s
          then [72; 180] else []).
Proof.
  intros sp Hok Hr. subst sp.
  assert (HsetAlarms : exists r b evs,
             setAlarms addr th tl persist s = (r, advance b evs s) /\
             bytes_written evs
             = [190; 78; u8 th; u8 tl; nth 4 (scratch_bytes addr (oneWire s)) 0; 190]
                 ++ (if persist && r then [72; 180] else [])).
  { rewrite setAlarms_run, Hok.
    destruct (write_after_read addr th tl
                (nth 4 (scratch_bytes addr (oneWire s)) 0) s)
      as [ok [b [evs [Hrun Hbytes]]]].
    rewrite Hrun, fst_pair, snd_pair.
    destruct ok; [destruct persist|].
    - destruct (copy_after addr b evs s) as [b' [evs' [Hcopy Hbytes']]].
      exists true, b', (evs ++ evs'). split; [exact Hcopy|].
      rewrite bytes_written_app, Hbytes, Hbytes'. reflexivity.
    - exists true, b, evs. split; [reflexivity|].
      rewrite Hbytes, app_nil_r. reflexivity.
    - exists false, b, evs. split; [reflexivity|].
      rewrite Hbytes, andb_false_r, app_nil_r. reflexivity. }
  assert (HsetResolution : exists r b evs,
             setResolution addr resolution persist s = (r, advance b evs s) /\
             bytes_written evs
             = [190; 78; nth 2 (scratch_bytes addr (oneWire s)) 0;
                nth 3 (scratch_bytes addr (oneWire s)) 0;
                32 * (resolution - 9) + 31; 190]
                 ++ (if persist && r then [72; 180] else [])).
  { rewrite (setResolution_run addr resolution persist s Hr). cbv zeta.
    rewrite Hok, (config_byte resolution Hr).
    destruct (write_after_read addr
                (i8 (nth 2 (scratch_bytes addr (oneWire s)) 0))
                (i8 (nth 3 (scratch_bytes addr (oneWire s)) 0))
                (32 * (resolution - 9) + 31) s)
      as [ok [b [evs [Hrun Hbytes]]]].
    rewrite !u8_i8 in Hbytes by (apply nth_is_u8, scratch_bytes_u8).
    rewrite Hrun, fst_pair, snd_pair.
    destruct ok; [destruct persist|].
    - destruct (copy_after addr b evs s) as [b' [evs' [Hcopy Hbytes']]].
      exists true, b', (evs ++ evs'). rewrite Hcopy, snd_pair.
      split; [reflexivity|].
      rewrite bytes_written_app, Hbytes, Hbytes'. reflexivity.
    - exists true, b, evs. split; [reflexivity|].
      rewrite Hbytes, app_nil_r. reflexivity.
    - exists false, b, evs. split; [reflexivity|].
      rewrite Hbytes, andb_false_r, app_nil_r. reflexivity. }
  destruct HsetAlarms as [r1 [b1 [evs1 [Hrun1 Hbytes1]]]].
  destruct HsetResolution as [r2 [b2 [evs2 [Hrun2 Hbytes2]]]].
  rewrite (actions_during_advance _ _ _ _ _ Hrun1).
  rewrite (actions_during_advance _ _ _ _ _ Hrun2).
  rewrite Hrun1, Hrun2, !fst_pair.
  split; [exact Hbytes1 | exact Hbytes2].
Qed.

(** X15 on the simulated probe: the thresholds 75 and 70 go back unchanged
    with the configuration byte of 10 bits, and the copy is commanded. *)
Lemma X15_setters_write_back_what_they_read_witness :
  bytes_written (actions_during (setResolution Example.addr 10 true)
                                Example.parasite_probe)
  = [190; 78; 75; 70; 63; 190; 72; 180].
Proof.
  destruct (X15_setters_write_back_what_they_read
              Example.addr 0 0 10 true Example.parasite_probe) as [_ Hbytes].
  - vm_compute. reflexivity.
  - lia.
  - rewrite Hbytes. vm_compute. reflexivity.
Defined.

(** ** The conversion window *)

(** X16.  For a parasite-powered device with a pull-up pin configured,
    [readTemperature] sends Convert T, then reads the scratchpad for the
    resolution and queries the power supply, and only then drives the
    pull-up pin high; the pin stays high for one delay, the conversion time
    of the resolution read, and is low again before the final scratchpad
    read. *)
Theorem X16_readTemperature_pullup_window {B : Type} `{OneWire B}
        (addr : ROM) (s : DS18B20_7semi B) :
  let b1 := ow_write 68 false (ow_select addr (snd (ow_reset (oneWire s)))) in
  let b2 := snd (bus_read_scratchpad addr b1) in
  let b3 := snd (bus_power_query addr b2) in
  let v := power_byte addr b2 in
  let pin := _strongPullupPin s in
  let res := result_of (getResolution addr)
                       (state_after (readTemperature_convert addr) s) in
  v <> 1 -> 0 <= pin ->
  actions_during (readTemperature addr) s
  = [EvReset; EvSelect addr; EvWrite 68 false]
      ++ ([EvReset; EvSelect addr; EvWrite 190 false]
            ++ map EvRead (scratch_bytes addr b1))
      ++ [EvReset; EvSelect addr; EvWrite 180 false; EvRead v]
      ++ [EvPinModeOutput pin; EvDigitalWrite pin true]
      ++ [EvDelay (_conversionDelayMs (if (res <? 9) || (res >? 12) then 12 else res))]
      ++ [EvPinModeOutput pin; EvDigitalWrite pin false]
      ++ ([EvReset; EvSelect addr; EvWrite 190 false]
            ++ map EvRead (scratch_bytes addr b3)).
Proof.
  intros b1 b2 b3 v pin res Hv Hpin.
  rewrite readTemperature_actions.
  rewrite (actions_during_advance _ _ _ _ _ (readTemperature_wait_run addr s)).
  rewrite (actions_during_advance _ _ _ _ _ (readScratchpad_run addr _)).
  rewrite readTemperature_wait_run, snd_pair, oneWire_advance.
  fold b1. fold b2. fold b3. fold v. fold pin. fold res.
  apply Z.eqb_neq in Hv. apply Z.leb_le in Hpin. rewrite Hv, Hpin.
  cbn [negb andb pullup]. rewrite <- !app_assoc. reflexivity.
Qed.

(** X16 on the simulated parasite-powered probe with the pull-up on pin 5. *)
Lemma X16_readTemperature_pullup_window_witness :
  pin_writes (actions_during (readTemperature Example.addr) Example.parasite_probe)
  = [(5, true); (5, false)] /\
  delays (actions_during (readTemperature Example.addr) Example.parasite_probe)
  = [750].
Proof.
  rewrite (X16_readTemperature_pullup_window Example.addr Example.parasite_probe).
  - vm_compute. split; reflexivity.
  - vm_compute. discriminate.
  - vm_compute. discriminate.
Defined.

(** ** Before discovery *)

(** X17.  A freshly constructed object has an empty registry: until [begin]
    or [searchDevices] has run, [getAddress] fails for every index, leaves
    the caller's buffer as it was and changes nothing. *)
Theorem X17_no_address_before_discovery {B : Type} `{OneWire B}
        (bus : B) (uninitialised : list ROM) (dataPin strongPullupPin : Z)
        (index : Z) (addr : ROM) :
  0 <= index ->
  let fresh := DS18B20_new bus uninitialised dataPin strongPullupPin in
  registry fresh = [] /\
  getAddress index addr fresh = ((false, addr), fresh).
Proof.
  intros Hindex. cbv zeta. split; [reflexivity|].
  rewrite getAddress_run. unfold DS18B20_new. cbn [_devices].
  assert (Hcmp : (0 <=? index) = true) by (apply Z.leb_le; exact Hindex).
  rewrite Hcmp. reflexivity.
Qed.

(** X17 on the simulated probe. *)
Lemma X17_no_address_before_discovery_witness :
  getAddress 0 [] Example.parasite_probe = ((false, []), Example.parasite_probe).
Proof.
  apply (proj2 (X17_no_address_before_discovery
                  (Sim.device 1 145 0 1) Example.blank 2 5 0 [] ltac:(lia))).
Defined.
